(** * vigir_crop_decimate_nodelet: the request-driven publication controller

    A shallow embedding of [CropDecimateNodelet]
    (src/vigir_crop_decimate_nodelet/src/crop_decimate_nodelet.cpp).

    The nodelet is a set of callbacks over member fields.  Each callback is a
    computation in a small monad [M] that threads the world (the member fields
    and the part of the ROS runtime the callbacks talk to), records the
    observable effects in order, and can fault on a null pointer dereference.
    Callbacks run one at a time. *)

From Stdlib Require Import String ZArith NArith Bool Floats Lia List.
Import ListNotations.
Local Open Scope Z_scope.

(** ** Messages *)

Module sensor_msgs.
(** sensor_msgs/RegionOfInterest, as far as the nodelet reads it. *)
Record RegionOfInterest : Type := mkRegionOfInterest {
  x_offset : Z;
  y_offset : Z;
  height : Z;
  width : Z
}.
End sensor_msgs.

Module CropDecimate.
(** CropDecimate::CropDecimateConfig.  The struct is declared in
    vigir_crop_decimate/crop_decimate.h; the nodelet assigns these six fields
    from the request, and a field holds the number assigned to it. *)
Record CropDecimateConfig : Type := mkCropDecimateConfig {
  decimation_x : Z;
  decimation_y : Z;
  width : Z;
  height : Z;
  x_offset : Z;
  y_offset : Z
}.
End CropDecimate.

(** flor_perception_msgs/DownSampledImageRequest.  [mode] is a uint8,
    [publish_frequency] is the value the code obtains from
    [(double)(publish_frequency)]: the conversion to double is exact. *)
Record DownSampledImageRequest : Type := mkDownSampledImageRequest {
  binning_x : Z;
  binning_y : Z;
  roi : sensor_msgs.RegionOfInterest;
  mode : Z;
  publish_frequency : float
}.

(** ** Arithmetic on the publish frequency *)

(** [std::min(a, b)] on doubles: [(b < a) ? b : a]. *)
Definition std_min (a b : float) : float :=
  if (b <? a)%float then b else a.

(** Handles of the runtime: timers and subscriptions are named by numbers. *)
Definition TimerId : Type := nat.
Definition SubscriberId : Type := nat.

Section Nodelet.

(** The payloads are opaque to the nodelet: it stores and forwards pointers. *)
Variables Image CameraInfo : Type.

(** [crop_decimate_.processImage(config, image, info, image_out, info_out)].
    The transform lives in vigir_crop_decimate and is taken as a parameter;
    following the specification ("pure with respect to controller state") it
    is a function of its three inputs.  The nodelet only looks at its boolean
    result and forwards the two outputs: [Some (i, c)] stands for [true] with
    outputs [i] and [c], [None] for [false]. *)
Variable processImage :
  CropDecimate.CropDecimateConfig -> Image -> CameraInfo -> option (Image * CameraInfo).

(** The mode constants of DownSampledImageRequest, declared by the generated
    message header. *)
Variables ONCE PUBLISH_FREQ ALL : Z.

(** The default-constructed [crop_decimate_config_]. *)
Variable default_config : CropDecimate.CropDecimateConfig.

(** ** State *)

(** The member fields of [CropDecimateNodelet].  A null shared pointer is
    [None].  [sub_] and [image_publish_timer_] are handles: [sub_] is [Some]
    exactly when [(bool)sub_] holds (a subscription that has not been shut
    down), [image_publish_timer_] is [Some] once a timer has been assigned. *)
Record Nodelet : Type := mkNodelet {
  sub_ : option SubscriberId;
  queue_size_ : Z;
  max_video_framerate_ : float;
  crop_decimate_config_ : CropDecimate.CropDecimateConfig;
  crop_decimate_configured_ : bool;
  last_image_msg_ : option Image;
  last_info_msg_ : option CameraInfo;
  last_request_ : option DownSampledImageRequest;
  image_publish_timer_ : option TimerId
}.

(** What the callbacks see of the ROS runtime: the number of consumers of the
    output topic, the camera subscriptions that are open, the timers that are
    started (with the period handed to [ros::Duration], in seconds), and the
    next fresh handle. *)
Record Ros : Type := mkRos {
  num_subscribers : N;
  subscriptions : list SubscriberId;
  timers : list (TimerId * float);
  next_handle : nat
}.

Record World : Type := mkWorld {
  node : Nodelet;
  ros : Ros
}.

(** Observable effects, in the order they happen. *)
Inductive Effect : Type :=
| E_ROS_INFO (msg : string)
| E_publishCroppedImage
| E_processImage (cfg : CropDecimate.CropDecimateConfig) (image : Image) (info : CameraInfo)
| E_publish (image_out : Image) (camera_info_out : CameraInfo)
| E_subscribeCamera (id : SubscriberId) (queue_size : Z)
| E_shutdown (id : SubscriberId)
| E_createTimer (id : TimerId) (period : float)
| E_stopTimer (id : TimerId).

(** ** The monad of callbacks *)

Definition M (A : Type) : Type := World -> option (A * World * list Effect).

Definition ret {A : Type} (a : A) : M A := fun w => Some (a, w, []).

Definition bind {A B : Type} (m : M A) (f : A -> M B) : M B := fun w =>
  match m w with
  | None => None
  | Some (a, w1, o1) =>
      match f a w1 with
      | None => None
      | Some (b, w2, o2) => Some (b, w2, o1 ++ o2)
      end
  end.

Notation "x <- c1 ;; c2" := (bind c1 (fun x => c2))
  (at level 61, c1 at next level, right associativity).
Notation "c1 ;; c2" := (bind c1 (fun _ => c2))
  (at level 61, right associativity).

Definition getNode : M Nodelet := fun w => Some (node w, w, []).

Definition modifyNode (f : Nodelet -> Nodelet) : M unit :=
  fun w => Some (tt, mkWorld (f (node w)) (ros w), []).

Definition modifyRos (f : Ros -> Ros) : M unit :=
  fun w => Some (tt, mkWorld (node w) (f (ros w)), []).

Definition emit (e : Effect) : M unit := fun w => Some (tt, w, [e]).

(** Reading through a null pointer. *)
Definition null_dereference {A : Type} : M A := fun _ => None.

(** ** Field assignments *)

Definition set_sub_ (v : option SubscriberId) (n : Nodelet) : Nodelet :=
  mkNodelet v (queue_size_ n) (max_video_framerate_ n) (crop_decimate_config_ n)
    (crop_decimate_configured_ n) (last_image_msg_ n) (last_info_msg_ n)
    (last_request_ n) (image_publish_timer_ n).

Definition set_crop_decimate_config_ (v : CropDecimate.CropDecimateConfig) (n : Nodelet) : Nodelet :=
  mkNodelet (sub_ n) (queue_size_ n) (max_video_framerate_ n) v
    (crop_decimate_configured_ n) (last_image_msg_ n) (last_info_msg_ n)
    (last_request_ n) (image_publish_timer_ n).

Definition set_crop_decimate_configured_ (v : bool) (n : Nodelet) : Nodelet :=
  mkNodelet (sub_ n) (queue_size_ n) (max_video_framerate_ n) (crop_decimate_config_ n)
    v (last_image_msg_ n) (last_info_msg_ n)
    (last_request_ n) (image_publish_timer_ n).

Definition set_last_image_msg_ (v : option Image) (n : Nodelet) : Nodelet :=
  mkNodelet (sub_ n) (queue_size_ n) (max_video_framerate_ n) (crop_decimate_config_ n)
    (crop_decimate_configured_ n) v (last_info_msg_ n)
    (last_request_ n) (image_publish_timer_ n).

Definition set_last_info_msg_ (v : option CameraInfo) (n : Nodelet) : Nodelet :=
  mkNodelet (sub_ n) (queue_size_ n) (max_video_framerate_ n) (crop_decimate_config_ n)
    (crop_decimate_configured_ n) (last_image_msg_ n) v
    (last_request_ n) (image_publish_timer_ n).

Definition set_last_request_ (v : option DownSampledImageRequest) (n : Nodelet) : Nodelet :=
  mkNodelet (sub_ n) (queue_size_ n) (max_video_framerate_ n) (crop_decimate_config_ n)
    (crop_decimate_configured_ n) (last_image_msg_ n) (last_info_msg_ n)
    v (image_publish_timer_ n).

Definition set_image_publish_timer_ (v : option TimerId) (n : Nodelet) : Nodelet :=
  mkNodelet (sub_ n) (queue_size_ n) (max_video_framerate_ n) (crop_decimate_config_ n)
    (crop_decimate_configured_ n) (last_image_msg_ n) (last_info_msg_ n)
    (last_request_ n) v.

Definition set_num_subscribers (v : N) (r : Ros) : Ros :=
  mkRos v (subscriptions r) (timers r) (next_handle r).

Definition set_subscriptions (v : list SubscriberId) (r : Ros) : Ros :=
  mkRos (num_subscribers r) v (timers r) (next_handle r).

Definition set_timers (v : list (TimerId * float)) (r : Ros) : Ros :=
  mkRos (num_subscribers r) (subscriptions r) v (next_handle r).

Definition set_next_handle (v : nat) (r : Ros) : Ros :=
  mkRos (num_subscribers r) (subscriptions r) (timers r) v.

(** ** The ROS calls the callbacks make *)

(** [pub_.getNumSubscribers()]. *)
Definition getNumSubscribers : M N :=
  fun w => Some (num_subscribers (ros w), w, []).

(** [it_in_->subscribeCamera("image_raw", queue_size, ...)]: opens a camera
    subscription and returns its handle. *)
Definition subscribeCamera (queue_size : Z) : M SubscriberId := fun w =>
  let id := next_handle (ros w) in
  Some (id,
        mkWorld (node w)
          (set_next_handle (S id) (set_subscriptions (subscriptions (ros w) ++ [id]) (ros w))),
        [E_subscribeCamera id queue_size]).

(** Closing the subscription a handle names. *)
Definition unsubscribe (id : SubscriberId) : M unit :=
  modifyRos (fun r => set_subscriptions (filter (fun s => negb (Nat.eqb s id)) (subscriptions r)) r) ;;
  emit (E_shutdown id).

(** [sub_.shutdown()]: closes the subscription if the handle still names an
    open one, and leaves the handle invalid. *)
Definition sub_shutdown : M unit :=
  n <- getNode ;;
  match sub_ n with
  | Some id => unsubscribe id ;; modifyNode (set_sub_ None)
  | None => ret tt
  end.

(** [sub_ = s]: the handle is replaced; a subscription that only the old
    handle named is closed. *)
Definition assign_sub_ (s : SubscriberId) : M unit :=
  n <- getNode ;;
  modifyNode (set_sub_ (Some s)) ;;
  match sub_ n with
  | Some old => unsubscribe old
  | None => ret tt
  end.

(** [nh.createTimer(ros::Duration(period), &publishTimerCb, this)]: a timer
    that is started, and its handle. *)
Definition createTimer (period : float) : M TimerId := fun w =>
  let id := next_handle (ros w) in
  Some (id,
        mkWorld (node w)
          (set_next_handle (S id) (set_timers (timers (ros w) ++ [(id, period)]) (ros w))),
        [E_createTimer id period]).

(** A timer whose last handle goes away is stopped. *)
Definition stopTimer (id : TimerId) : M unit :=
  modifyRos (fun r => set_timers (filter (fun t => negb (Nat.eqb (fst t) id)) (timers r)) r) ;;
  emit (E_stopTimer id).

(** [image_publish_timer_ = t]: the member is the only handle of its timer,
    so the timer it named before stops. *)
Definition assign_image_publish_timer_ (t : TimerId) : M unit :=
  n <- getNode ;;
  modifyNode (set_image_publish_timer_ (Some t)) ;;
  match image_publish_timer_ n with
  | Some old => stopTimer old
  | None => ret tt
  end.

(** [last_request_->mode] and [last_request_->publish_frequency] read through
    the pointer. *)
Definition deref_last_request_ : M DownSampledImageRequest :=
  n <- getNode ;;
  match last_request_ n with
  | Some r => ret r
  | None => null_dereference
  end.

(** ** The callbacks *)

(** [onInit]: the two parameters are read from the parameter server, with
    defaults 5 and 100.0; every other member is default-constructed. *)
Definition onInit (param_queue_size : option Z) (param_max_video_framerate : option float) : World :=
  mkWorld
    (mkNodelet None
       (match param_queue_size with Some q => q | None => 5 end)
       (match param_max_video_framerate with Some f => f | None => 100%float end)
       default_config false None None None None)
    (mkRos 0%N [] [] 0%nat).

Definition publishCroppedImage : M unit :=
  emit E_publishCroppedImage ;;
  n <- getNode ;;
  match last_image_msg_ n, last_info_msg_ n with
  | Some image, Some info =>
      emit (E_processImage (crop_decimate_config_ n) image info) ;;
      match processImage (crop_decimate_config_ n) image info with
      | Some (image_out, camera_info_out) => emit (E_publish image_out camera_info_out)
      | None => ret tt
      end
  | _, _ => ret tt
  end.

Definition connectCb : M unit :=
  c <- getNumSubscribers ;;
  if (c =? 0)%N then sub_shutdown
  else
    n <- getNode ;;
    match sub_ n with
    | None =>
        s <- subscribeCamera (queue_size_ n) ;;
        assign_sub_ s ;;
        emit (E_ROS_INFO "subscribed to camera")
    | Some _ => ret tt
    end.

Definition imageCb (image_msg : Image) (info_msg : CameraInfo) : M unit :=
  modifyNode (set_last_image_msg_ (Some image_msg)) ;;
  modifyNode (set_last_info_msg_ (Some info_msg)) ;;
  n <- getNode ;;
  match last_request_ n with
  | None => ret tt
  | Some r => if mode r =? ALL then publishCroppedImage else ret tt
  end.

Definition imageRequestCb (image_request_msg : DownSampledImageRequest) : M unit :=
  emit (E_ROS_INFO "Image requested") ;;
  modifyNode (set_last_request_ (Some image_request_msg)) ;;
  modifyNode (set_crop_decimate_config_
    (CropDecimate.mkCropDecimateConfig
       (binning_x image_request_msg)
       (binning_y image_request_msg)
       (sensor_msgs.width (roi image_request_msg))
       (sensor_msgs.height (roi image_request_msg))
       (sensor_msgs.x_offset (roi image_request_msg))
       (sensor_msgs.y_offset (roi image_request_msg)))) ;;
  modifyNode (set_crop_decimate_configured_ true) ;;
  r <- deref_last_request_ ;;
  if mode r =? ONCE then publishCroppedImage
  else if mode r =? PUBLISH_FREQ then
    publishCroppedImage ;;
    n <- getNode ;;
    let capped_publish_frequency :=
      std_min (max_video_framerate_ n) (publish_frequency r) in
    if (0 <? capped_publish_frequency)%float then
      t <- createTimer (1 / capped_publish_frequency)%float ;;
      assign_image_publish_timer_ t
    else ret tt
  else publishCroppedImage.

Definition publishTimerCb : M unit :=
  r <- deref_last_request_ ;;
  if negb (mode r =? PUBLISH_FREQ) then ret tt
  else publishCroppedImage.

(** ** Events *)

(** What the runtime delivers to the nodelet: a change of the number of
    consumers of the output (it calls [connectCb]), a frame, a request, the
    tick of a timer. *)
Inductive Event : Type :=
| SubscribersChanged (count : N)
| ImageArrived (image_msg : Image) (info_msg : CameraInfo)
| RequestArrived (image_request_msg : DownSampledImageRequest)
| TimerFired (id : TimerId).

Definition dispatch (e : Event) : M unit :=
  match e with
  | SubscribersChanged count => modifyRos (set_num_subscribers count) ;; connectCb
  | ImageArrived image_msg info_msg => imageCb image_msg info_msg
  | RequestArrived r => imageRequestCb r
  | TimerFired _ => publishTimerCb
  end.

(** The runtime delivers frames only over an open subscription and ticks only
    for a started timer. *)
Definition enabled (e : Event) (w : World) : bool :=
  match e with
  | ImageArrived _ _ => negb (Nat.eqb (length (subscriptions (ros w))) 0)
  | TimerFired id => existsb (fun t => Nat.eqb (fst t) id) (timers (ros w))
  | _ => true
  end.

(** Handling a sequence of events, one after the other. *)
Fixpoint run (es : list Event) : M unit :=
  match es with
  | [] => ret tt
  | e :: es' => dispatch e ;; run es'
  end.

(** The states the nodelet can be in: after [onInit], and after every event
    the runtime can deliver. *)
Inductive reachable : World -> Prop :=
| reach_init : forall q f, reachable (onInit q f)
| reach_step : forall w e w' out,
    reachable w -> enabled e w = true -> dispatch e w = Some (tt, w', out) ->
    reachable w'.

(** A sequence of events the runtime can deliver from a state: each event is
    enabled where it arrives, and no callback faults. *)
Fixpoint feasible (es : list Event) (w : World) : bool :=
  match es with
  | [] => true
  | e :: es' =>
      enabled e w &&
      match dispatch e w with
      | Some (_, w', _) => feasible es' w'
      | None => false
      end
  end.

(** ** Reading a trace *)

Definition is_attempt (e : Effect) : bool :=
  match e with E_publishCroppedImage => true | _ => false end.

Definition is_transform (e : Effect) : bool :=
  match e with E_processImage _ _ _ => true | _ => false end.

Definition is_publish (e : Effect) : bool :=
  match e with E_publish _ _ => true | _ => false end.

Definition is_createTimer (e : Effect) : bool :=
  match e with E_createTimer _ _ => true | _ => false end.

(** Calls of [publishCroppedImage] in a trace. *)
Definition attempts (out : list Effect) : nat := length (filter is_attempt out).

(** Calls of [processImage] in a trace. *)
Definition transforms (out : list Effect) : nat := length (filter is_transform out).

(** Calls of [pub_.publish] in a trace. *)
Definition publishes (out : list Effect) : nat := length (filter is_publish out).

Definition is_request (e : Event) : bool :=
  match e with RequestArrived _ => true | _ => false end.

Definition is_frame (e : Event) : bool :=
  match e with ImageArrived _ _ => true | _ => false end.

(** The frequency [imageRequestCb] computes for a request in a given state. *)
Definition effective_frequency (w : World) (r : DownSampledImageRequest) : float :=
  std_min (max_video_framerate_ (node w)) (publish_frequency r).

Definition timer_ids (w : World) : list TimerId := map fst (timers (ros w)).

(** The condition under which [imageRequestCb] reaches [createTimer]: the
    second branch of the dispatch, with a positive capped frequency. *)
Definition arms_timer (w : World) (r : DownSampledImageRequest) : bool :=
  negb (mode r =? ONCE) && (mode r =? PUBLISH_FREQ) &&
  (0 <? effective_frequency w r)%float.


(** ** What each callback computes *)

(** The trace of one call of [publishCroppedImage] in a state of the node. *)
Definition publish_trace (n : Nodelet) : list Effect :=
  E_publishCroppedImage ::
  match last_image_msg_ n, last_info_msg_ n with
  | Some image, Some info =>
      E_processImage (crop_decimate_config_ n) image info ::
      match processImage (crop_decimate_config_ n) image info with
      | Some (image_out, camera_info_out) => [E_publish image_out camera_info_out]
      | None => []
      end
  | _, _ => []
  end.

Arguments publish_trace : simpl never.

(** The node after [imageRequestCb] has stored a request and its crop
    configuration. *)
Definition store_request (r : DownSampledImageRequest) (n : Nodelet) : Nodelet :=
  set_crop_decimate_configured_ true
    (set_crop_decimate_config_
       (CropDecimate.mkCropDecimateConfig (binning_x r) (binning_y r)
          (sensor_msgs.width (roi r)) (sensor_msgs.height (roi r))
          (sensor_msgs.x_offset (roi r)) (sensor_msgs.y_offset (roi r)))
       (set_last_request_ (Some r) n)).

(** ** Invariants of the reachable states *)

(** The timer handle of the node names the only started timer. *)
Definition timer_owned (w : World) : Prop :=
  match image_publish_timer_ (node w) with
  | Some id =>
      (exists period, timers (ros w) = [(id, period)]) /\ (id < next_handle (ros w))%nat
  | None => timers (ros w) = []
  end.

(** The subscription handle of the node names the only open subscription. *)
Definition sub_owned (w : World) : Prop :=
  subscriptions (ros w) =
  match sub_ (node w) with Some id => [id] | None => [] end.

(** A timer exists only once a request has been stored. *)
Definition timer_after_request (w : World) : Prop :=
  image_publish_timer_ (node w) <> None -> last_request_ (node w) <> None.

(** The timer of the current request, when that request armed one. *)
Definition periodic_timer_armed (w : World) : Prop :=
  forall r, last_request_ (node w) = Some r -> arms_timer w r = true ->
  exists id, image_publish_timer_ (node w) = Some id /\
             timers (ros w) = [(id, (1 / effective_frequency w r)%float)].

Definition Inv (w : World) : Prop :=
  timer_owned w /\ sub_owned w /\ timer_after_request w /\ periodic_timer_armed w.

(** ** Two statements of the specification, as written there *)

(** "Cancel any existing RecurringTimer unconditionally": after the request
    handler returns, no timer started before it is still started. *)
Definition cancels_previous_timers : Prop :=
  forall (w w' : World) (r : DownSampledImageRequest) (out : list Effect),
  reachable w -> imageRequestCb r w = Some (tt, w', out) ->
  forall id, In id (timer_ids w) -> ~ In id (timer_ids w').

(** "RecurringTimer present iff current Request.mode == PERIODIC and
    publishFrequencyHz > 0.  Exactly zero or one active timer at a time." *)
Definition timer_iff_periodic : Prop :=
  forall w : World, reachable w ->
  (timers (ros w) <> [] <->
   exists r, last_request_ (node w) = Some r /\ mode r = PUBLISH_FREQ /\
             (0 <? effective_frequency w r)%float = true) /\
  (List.length (timers (ros w)) <= 1)%nat.

Ltac unfold_cb :=
  unfold dispatch, imageRequestCb, imageCb, publishTimerCb, connectCb, publishCroppedImage,
    deref_last_request_, assign_image_publish_timer_, stopTimer, createTimer,
    assign_sub_, sub_shutdown, unsubscribe, subscribeCamera, getNumSubscribers,
    null_dereference, emit, modifyRos, modifyNode, getNode, bind, ret.

Lemma publishCroppedImage_run (w : World) :
  publishCroppedImage w = Some (tt, w, publish_trace (node w)).
Proof.
  destruct w as [n r]. unfold_cb. unfold publish_trace. simpl.
  destruct (last_image_msg_ n) as [i|]; [destruct (last_info_msg_ n) as [c|]|]; simpl; auto.
  destruct (processImage (crop_decimate_config_ n) i c) as [[io co]|]; reflexivity.
Qed.

Lemma ok_inj (A : Type) (a b : A) (w1 w2 : World) (o1 o2 : list Effect) :
  Some (a, w1, o1) = Some (b, w2, o2) -> w1 = w2 /\ o1 = o2.
Proof. intro H. inversion H. split; reflexivity. Qed.

Lemma world_eta (w : World) : mkWorld (node w) (ros w) = w.
Proof. destruct w; reflexivity. Qed.

Lemma imageCb_run (image_msg : Image) (info_msg : CameraInfo) (w : World) :
  let n' := set_last_info_msg_ (Some info_msg) (set_last_image_msg_ (Some image_msg) (node w)) in
  imageCb image_msg info_msg w =
  Some (tt, mkWorld n' (ros w),
        match last_request_ (node w) with
        | None => []
        | Some r => if mode r =? ALL then publish_trace n' else []
        end).
Proof.
  intro n'. unfold imageCb, bind, modifyNode, getNode, ret. simpl.
  destruct (last_request_ (node w)) as [r|]; [|reflexivity].
  destruct (mode r =? ALL); [|reflexivity].
  rewrite publishCroppedImage_run. reflexivity.
Qed.

Lemma imageRequestCb_plain (r : DownSampledImageRequest) (w : World) :
  arms_timer w r = false ->
  imageRequestCb r w =
  Some (tt, mkWorld (store_request r (node w)) (ros w),
        E_ROS_INFO "Image requested" :: publish_trace (store_request r (node w))).
Proof.
  unfold arms_timer, effective_frequency. intro H.
  unfold imageRequestCb, deref_last_request_, bind, modifyNode, getNode, emit, ret. simpl.
  fold (store_request r (node w)).
  destruct (mode r =? ONCE).
  - rewrite publishCroppedImage_run. simpl. rewrite ?app_nil_r. reflexivity.
  - destruct (mode r =? PUBLISH_FREQ).
    + simpl in H. rewrite publishCroppedImage_run. simpl. rewrite H. simpl.
      rewrite ?app_nil_r. reflexivity.
    + rewrite publishCroppedImage_run. simpl. rewrite ?app_nil_r. reflexivity.
Qed.

Lemma imageRequestCb_timer (r : DownSampledImageRequest) (w : World) :
  arms_timer w r = true ->
  let id := next_handle (ros w) in
  let period := (1 / effective_frequency w r)%float in
  imageRequestCb r w =
  Some (tt,
        mkWorld (set_image_publish_timer_ (Some id) (store_request r (node w)))
          (match image_publish_timer_ (node w) with
           | Some old =>
               set_timers (filter (fun t => negb (Nat.eqb (fst t) old))
                             (timers (ros w) ++ [(id, period)]))
                 (set_next_handle (S id) (ros w))
           | None => set_timers (timers (ros w) ++ [(id, period)]) (set_next_handle (S id) (ros w))
           end),
        E_ROS_INFO "Image requested" :: publish_trace (store_request r (node w)) ++
        E_createTimer id period ::
        match image_publish_timer_ (node w) with
        | Some old => [E_stopTimer old]
        | None => []
        end).
Proof.
  intros H id period. subst id period.
  unfold arms_timer in H. unfold effective_frequency in *.
  apply andb_prop in H. destruct H as [H H3]. apply andb_prop in H. destruct H as [H1 H2].
  apply negb_true_iff in H1.
  unfold imageRequestCb, deref_last_request_, bind, modifyNode, getNode, emit, ret. simpl.
  fold (store_request r (node w)).
  rewrite H1, H2, publishCroppedImage_run. simpl. rewrite H3.
  unfold assign_image_publish_timer_, createTimer, stopTimer, bind, modifyNode, modifyRos, getNode, emit, ret.
  simpl. destruct (image_publish_timer_ (node w)) as [old|]; simpl; rewrite ?app_nil_r; reflexivity.
Qed.

Lemma publishTimerCb_run (w : World) :
  publishTimerCb w =
  match last_request_ (node w) with
  | None => None
  | Some r =>
      Some (tt, w, if mode r =? PUBLISH_FREQ then publish_trace (node w) else [])
  end.
Proof.
  unfold publishTimerCb, deref_last_request_, bind, getNode, null_dereference, ret. simpl.
  destruct (last_request_ (node w)) as [r|]; [|reflexivity]. simpl.
  destruct (mode r =? PUBLISH_FREQ); simpl; [|reflexivity].
  rewrite publishCroppedImage_run. reflexivity.
Qed.

Lemma connectCb_run (w : World) :
  connectCb w =
  Some (tt,
        (if (num_subscribers (ros w) =? 0)%N then
           match sub_ (node w) with
           | Some id =>
               mkWorld (set_sub_ None (node w))
                 (set_subscriptions
                    (filter (fun s => negb (Nat.eqb s id)) (subscriptions (ros w))) (ros w))
           | None => w
           end
         else
           match sub_ (node w) with
           | Some _ => w
           | None =>
               mkWorld (set_sub_ (Some (next_handle (ros w))) (node w))
                 (set_next_handle (S (next_handle (ros w)))
                    (set_subscriptions (subscriptions (ros w) ++ [next_handle (ros w)]) (ros w)))
           end),
        (if (num_subscribers (ros w) =? 0)%N then
           match sub_ (node w) with Some id => [E_shutdown id] | None => [] end
         else
           match sub_ (node w) with
           | Some _ => []
           | None => [E_subscribeCamera (next_handle (ros w)) (queue_size_ (node w));
                      E_ROS_INFO "subscribed to camera"]
           end)).
Proof.
  destruct w as [n r]. unfold_cb. simpl.
  destruct (num_subscribers r =? 0)%N; simpl; destruct (sub_ n) as [id|] eqn:E;
    cbn; rewrite ?E; reflexivity.
Qed.

(** ** The invariants hold in every reachable state *)

Lemma arms_timer_ext (w w' : World) (r : DownSampledImageRequest) :
  max_video_framerate_ (node w') = max_video_framerate_ (node w) ->
  arms_timer w' r = arms_timer w r /\ effective_frequency w' r = effective_frequency w r.
Proof. unfold arms_timer, effective_frequency. intros ->. split; reflexivity. Qed.

Lemma Inv_init (q : option Z) (f : option float) : Inv (onInit q f).
Proof.
  unfold Inv, timer_owned, sub_owned, timer_after_request, periodic_timer_armed; simpl.
  repeat split; congruence.
Qed.

Lemma connectCb_Inv (w w' : World) (out : list Effect) :
  Inv w -> connectCb w = Some (tt, w', out) -> Inv w'.
Proof.
  intros (Ht & Hs & Hr & Hp). rewrite connectCb_run. intro E. inversion E; subst; clear E.
  unfold Inv, timer_owned, sub_owned, timer_after_request, periodic_timer_armed in *.
  destruct (num_subscribers (ros w) =? 0)%N; destruct (sub_ (node w)) as [id|] eqn:Es;
    simpl; rewrite ?Es; auto.
  - rewrite Hs. simpl. rewrite Nat.eqb_refl. simpl. auto.
  - rewrite Hs. simpl. repeat split; auto.
    destruct (image_publish_timer_ (node w)); auto.
    destruct Ht as [Hx Hlt]. split; auto.
Qed.

Lemma dispatch_Inv (e : Event) (w w' : World) (out : list Effect) :
  Inv w -> dispatch e w = Some (tt, w', out) -> Inv w'.
Proof.
  destruct e as [c | i ci | r | id]; simpl.
  - intros HI. unfold bind, modifyRos.
    destruct (connectCb _) as [[[[] w1] o1]|] eqn:E; [|discriminate].
    intro H; inversion H; subst; clear H.
    eapply connectCb_Inv; [|exact E].
    destruct HI as (Ht & Hs & Hr & Hp). repeat split; auto.
  - intros (Ht & Hs & Hr & Hp). rewrite imageCb_run. intro H; inversion H; subst; clear H.
    repeat split; auto.
  - intros (Ht & Hs & Hr & Hp).
    destruct (arms_timer w r) eqn:Ea.
    + rewrite (imageRequestCb_timer r w Ea). intro H; inversion H; subst; clear H.
      unfold Inv, timer_owned, sub_owned, timer_after_request, periodic_timer_armed in *.
      simpl.
      destruct (image_publish_timer_ (node w)) as [old|] eqn:Eo; simpl.
      * destruct Ht as [[p0 Hp0] Hlt]. rewrite Hp0. simpl. rewrite Nat.eqb_refl. simpl.
        destruct (Nat.eqb_spec (next_handle (ros w)) old) as [Hx|Hx]; [lia|]. simpl.
        repeat split; eauto; try congruence.
        intros r' Hr' _. inversion Hr'; subst r'. eexists; split; reflexivity.
      * rewrite Ht. simpl.
        repeat split; eauto; try congruence.
        intros r' Hr' _. inversion Hr'; subst r'. eexists; split; reflexivity.
    + rewrite (imageRequestCb_plain r w Ea). intro H; inversion H; subst; clear H.
      unfold Inv, timer_owned, sub_owned, timer_after_request, periodic_timer_armed in *.
      simpl. repeat split; auto; try congruence.
      intros r' Hr'. inversion Hr'; subst r'.
      change (arms_timer w r = true -> exists id, image_publish_timer_ (node w) = Some id /\
               timers (ros w) = [(id, (1 / effective_frequency w r)%float)]).
      congruence.
  - intros HI. rewrite publishTimerCb_run. destruct (last_request_ (node w)); [|discriminate].
    intro H; inversion H; subst; auto.
Qed.

Lemma reachable_Inv (w : World) : reachable w -> Inv w.
Proof.
  induction 1 as [q f | w e w' out _ IH _ Hd].
  - apply Inv_init.
  - eapply dispatch_Inv; eauto.
Qed.

(** ** Counting in traces *)

Lemma attempts_app (a b : list Effect) : attempts (a ++ b) = (attempts a + attempts b)%nat.
Proof. unfold attempts. rewrite filter_app, length_app. reflexivity. Qed.

Lemma publishes_app (a b : list Effect) : publishes (a ++ b) = (publishes a + publishes b)%nat.
Proof. unfold publishes. rewrite filter_app, length_app. reflexivity. Qed.

Lemma transforms_app (a b : list Effect) : transforms (a ++ b) = (transforms a + transforms b)%nat.
Proof. unfold transforms. rewrite filter_app, length_app. reflexivity. Qed.

Lemma attempts_publish_trace (n : Nodelet) : attempts (publish_trace n) = 1%nat.
Proof.
  unfold publish_trace, attempts. simpl.
  destruct (last_image_msg_ n) as [i|]; [destruct (last_info_msg_ n) as [c|]|]; simpl; auto.
  destruct (processImage (crop_decimate_config_ n) i c) as [[io co]|]; reflexivity.
Qed.

Lemma publish_trace_no_frame (n : Nodelet) :
  last_image_msg_ n = None \/ last_info_msg_ n = None ->
  publish_trace n = [E_publishCroppedImage].
Proof.
  unfold publish_trace. intros [H|H]; rewrite H; [reflexivity|].
  destruct (last_image_msg_ n); reflexivity.
Qed.

Lemma publish_trace_no_createTimer (n : Nodelet) :
  filter is_createTimer (publish_trace n) = [].
Proof.
  unfold publish_trace. simpl.
  destruct (last_image_msg_ n) as [i|]; [destruct (last_info_msg_ n) as [c|]|]; simpl; auto.
  destruct (processImage (crop_decimate_config_ n) i c) as [[io co]|]; reflexivity.
Qed.

(** ** Summaries of the callbacks *)

(** [imageRequestCb] always returns; its trace is the log line, one call of
    [publishCroppedImage] on the stored request, and timer bookkeeping. *)
Lemma imageRequestCb_shape (r : DownSampledImageRequest) (w : World) :
  exists w' tail,
    imageRequestCb r w =
      Some (tt, w', E_ROS_INFO "Image requested" :: publish_trace (store_request r (node w)) ++ tail) /\
    node w' = set_image_publish_timer_ (image_publish_timer_ (node w')) (store_request r (node w)) /\
    attempts tail = 0%nat /\ publishes tail = 0%nat /\ transforms tail = 0%nat /\
    (arms_timer w r = false -> tail = [] /\ ros w' = ros w /\
       image_publish_timer_ (node w') = image_publish_timer_ (node w)).
Proof.
  destruct (arms_timer w r) eqn:Ea.
  - rewrite (imageRequestCb_timer r w Ea). do 2 eexists. split; [reflexivity|].
    simpl. repeat split; try discriminate;
      destruct (image_publish_timer_ (node w)); reflexivity.
  - rewrite (imageRequestCb_plain r w Ea). exists (mkWorld (store_request r (node w)) (ros w)), [].
    rewrite app_nil_r. simpl. repeat split; reflexivity.
Qed.

(** A change of the consumer count touches the subscription only. *)
Lemma dispatch_connect (c : N) (w : World) :
  exists w' out,
    dispatch (SubscribersChanged c) w = Some (tt, w', out) /\
    last_request_ (node w') = last_request_ (node w) /\
    last_image_msg_ (node w') = last_image_msg_ (node w) /\
    last_info_msg_ (node w') = last_info_msg_ (node w) /\
    attempts out = 0%nat /\ publishes out = 0%nat /\ transforms out = 0%nat /\
    filter is_createTimer out = [].
Proof.
  simpl. unfold bind, modifyRos. rewrite connectCb_run. simpl.
  do 2 eexists. split; [reflexivity|].
  destruct (c =? 0)%N; destruct (sub_ (node w)); simpl; repeat split; reflexivity.
Qed.

(** The stored request is never cleared. *)
Lemma dispatch_keeps_request (e : Event) (w w' : World) (out : list Effect) :
  dispatch e w = Some (tt, w', out) ->
  last_request_ (node w) <> None -> last_request_ (node w') <> None.
Proof.
  destruct e as [c | i ci | r | id].
  - destruct (dispatch_connect c w) as (w1 & o1 & E & Hr & _). rewrite E.
    intro H; inversion H; subst. congruence.
  - simpl. rewrite imageCb_run. intro H; inversion H; subst. simpl. auto.
  - simpl. destruct (imageRequestCb_shape r w) as (w1 & tl & E & Hn & _). rewrite E.
    intro H; inversion H; subst. rewrite Hn. simpl. congruence.
  - simpl. rewrite publishTimerCb_run.
    destruct (last_request_ (node w)) eqn:E; [|discriminate].
    intro H; inversion H; subst. rewrite E. auto.
Qed.

(** Once a request is stored no callback can fault. *)
Lemma dispatch_total (e : Event) (w : World) :
  last_request_ (node w) <> None \/ (forall id, e <> TimerFired id) ->
  exists w' out, dispatch e w = Some (tt, w', out).
Proof.
  destruct e as [c | i ci | r | id]; intro H.
  - destruct (dispatch_connect c w) as (w1 & o1 & E & _). eauto.
  - simpl. rewrite imageCb_run. eauto.
  - simpl. destruct (imageRequestCb_shape r w) as (w1 & tl & E & _). eauto.
  - simpl. rewrite publishTimerCb_run. destruct (last_request_ (node w)); eauto.
    destruct H as [H|H]; [congruence|]. exfalso. eapply H; reflexivity.
Qed.

Lemma run_total (es : list Event) (w : World) :
  last_request_ (node w) <> None -> exists w' out, run es w = Some (tt, w', out).
Proof.
  revert w. induction es as [|e es IH]; intros w H; simpl.
  - unfold ret. eauto.
  - destruct (dispatch_total e w (or_introl H)) as (w1 & o1 & E).
    unfold bind. rewrite E.
    destruct (IH w1 (dispatch_keeps_request e w w1 o1 E H)) as (w2 & o2 & E2).
    rewrite E2. eauto.
Qed.

Lemma run_cons_inv (e : Event) (es : list Event) (w w' : World) (out : list Effect) :
  run (e :: es) w = Some (tt, w', out) ->
  exists w1 o1 o2,
    dispatch e w = Some (tt, w1, o1) /\ run es w1 = Some (tt, w', o2) /\ out = o1 ++ o2.
Proof.
  simpl. unfold bind. destruct (dispatch e w) as [[[[] w1] o1]|] eqn:E1; [|discriminate].
  destruct (run es w1) as [[[[] w2] o2]|] eqn:E2; [|discriminate].
  intro H; inversion H; subst. exists w1, o1, o2. repeat split; auto.
Qed.

(** Only [imageRequestCb] writes [last_request_]. *)
Lemma dispatch_same_request (e : Event) (w w' : World) (out : list Effect) :
  is_request e = false -> dispatch e w = Some (tt, w', out) ->
  last_request_ (node w') = last_request_ (node w).
Proof.
  destruct e as [c | i ci | r | id]; intro Hq; try discriminate.
  - destruct (dispatch_connect c w) as (w1 & o1 & E & Hr & _). rewrite E.
    intro H; inversion H; subst. exact Hr.
  - simpl. rewrite imageCb_run. intro H; inversion H; subst. reflexivity.
  - simpl. rewrite publishTimerCb_run. destruct (last_request_ (node w)) eqn:E; [|discriminate].
    intro H; inversion H; subst. congruence.
Qed.

Lemma run_same_request (es : list Event) :
  forall (w w' : World) (out : list Effect),
  existsb is_request es = false -> run es w = Some (tt, w', out) ->
  last_request_ (node w') = last_request_ (node w).
Proof.
  induction es as [|e es IH]; intros w w' out Hq.
  - simpl. unfold ret. intro H; inversion H; subst. reflexivity.
  - simpl in Hq. apply orb_false_elim in Hq. destruct Hq as [He Hes].
    intro H. apply run_cons_inv in H. destruct H as (w1 & o1 & o2 & E1 & E2 & _).
    rewrite (IH w1 w' o2 Hes E2). eapply dispatch_same_request; eauto.
Qed.

(** While the stored request is neither periodic nor ALL, nothing but a new
    request reaches [publishCroppedImage]. *)
Lemma dispatch_quiet (e : Event) (w : World) (r : DownSampledImageRequest) :
  last_request_ (node w) = Some r ->
  (mode r =? PUBLISH_FREQ) = false -> (mode r =? ALL) = false ->
  is_request e = false ->
  exists w' out,
    dispatch e w = Some (tt, w', out) /\ attempts out = 0%nat /\
    last_request_ (node w') = Some r.
Proof.
  intros Hr Hp Ha Hq. destruct e as [c | i ci | r' | id]; try discriminate.
  - destruct (dispatch_connect c w) as (w1 & o1 & E & Hr1 & _ & _ & Hat & _).
    exists w1, o1. repeat split; auto. congruence.
  - simpl. rewrite imageCb_run. rewrite Hr, Ha. do 2 eexists. repeat split. simpl. exact Hr.
  - simpl. rewrite publishTimerCb_run. rewrite Hr, Hp. eauto.
Qed.

Lemma run_quiet (es : list Event) :
  forall (w : World) (r : DownSampledImageRequest),
  last_request_ (node w) = Some r ->
  (mode r =? PUBLISH_FREQ) = false -> (mode r =? ALL) = false ->
  existsb is_request es = false ->
  exists w' out, run es w = Some (tt, w', out) /\ attempts out = 0%nat.
Proof.
  induction es as [|e es IH]; intros w r Hr Hp Ha Hq.
  - simpl. unfold ret. eauto.
  - simpl in Hq. apply orb_false_elim in Hq. destruct Hq as [He Hes].
    destruct (dispatch_quiet e w r Hr Hp Ha He) as (w1 & o1 & E1 & A1 & Hr1).
    destruct (IH w1 r Hr1 Hp Ha Hes) as (w2 & o2 & E2 & A2).
    simpl. unfold bind. rewrite E1, E2. do 2 eexists. split; [reflexivity|].
    rewrite attempts_app, A1, A2. reflexivity.
Qed.

(** Without a cached frame nothing is published, whatever arrives except a
    frame. *)
Lemma dispatch_no_frame (e : Event) (w w' : World) (out : list Effect) :
  last_image_msg_ (node w) = None \/ last_info_msg_ (node w) = None ->
  is_frame e = false -> dispatch e w = Some (tt, w', out) ->
  publishes out = 0%nat /\ transforms out = 0%nat /\
  (last_image_msg_ (node w') = None \/ last_info_msg_ (node w') = None).
Proof.
  intros Hn Hf. destruct e as [c | i ci | r | id]; try discriminate.
  - destruct (dispatch_connect c w) as (w1 & o1 & E & _ & Hi & Hc & _ & Hp & Ht & _).
    rewrite E. intro H; inversion H; subst. rewrite Hi, Hc. auto.
  - simpl. destruct (imageRequestCb_shape r w) as (w1 & tl & E & Hnode & _ & Hp & Ht & _).
    rewrite E. rewrite (publish_trace_no_frame (store_request r (node w))) by exact Hn.
    intro H; inversion H; subst. rewrite Hnode.
    unfold publishes, transforms in *. simpl. auto.
  - simpl. rewrite publishTimerCb_run. destruct (last_request_ (node w)) as [r|]; [|discriminate].
    rewrite (publish_trace_no_frame (node w)) by exact Hn.
    intro H; inversion H; subst.
    destruct (mode r =? PUBLISH_FREQ); auto.
Qed.

Lemma run_no_frame (es : list Event) :
  forall (w : World),
  last_request_ (node w) <> None ->
  last_image_msg_ (node w) = None \/ last_info_msg_ (node w) = None ->
  existsb is_frame es = false ->
  exists w' out, run es w = Some (tt, w', out) /\ publishes out = 0%nat /\ transforms out = 0%nat.
Proof.
  induction es as [|e es IH]; intros w Hr Hn Hf.
  - simpl. unfold ret. eauto.
  - simpl in Hf. apply orb_false_elim in Hf. destruct Hf as [He Hes].
    destruct (dispatch_total e w (or_introl Hr)) as (w1 & o1 & E1).
    destruct (dispatch_no_frame e w w1 o1 Hn He E1) as (P1 & T1 & Hn1).
    destruct (IH w1 (dispatch_keeps_request e w w1 o1 E1 Hr) Hn1 Hes) as (w2 & o2 & E2 & P2 & T2).
    simpl. unfold bind. rewrite E1, E2. do 2 eexists. split; [reflexivity|].
    rewrite publishes_app, transforms_app, P1, P2, T1, T2. auto.
Qed.

(** ** [std::min] on doubles *)

Lemma SFcompare_antisym (x y : spec_float) :
  SFcompare y x = option_map CompOpp (SFcompare x y).
Proof.
  destruct x as [sx|sx| |sx mx ex], y as [sy|sy| |sy my ey]; simpl; try reflexivity;
    try (destruct sx; reflexivity); try (destruct sy; reflexivity);
    try (destruct sx, sy; reflexivity).
  pose proof (Pos.compare_cont_antisym mx my Eq) as Hc. simpl in Hc.
  destruct sx, sy; simpl; try reflexivity;
    rewrite (Z.compare_antisym ex ey); destruct (ex ?= ey)%Z; simpl; try reflexivity;
    rewrite <- Hc; destruct (Pos.compare_cont Eq mx my); reflexivity.
Qed.

Lemma SFcompare_defined (x y : spec_float) :
  SFcompare x x = Some Eq -> SFcompare y y = Some Eq -> SFcompare x y <> None.
Proof.
  destruct x as [sx|sx| |sx mx ex], y as [sy|sy| |sy my ey]; simpl; congruence.
Qed.

Lemma not_nan_compare (a : float) :
  is_nan a = false -> SFcompare (Prim2SF a) (Prim2SF a) = Some Eq.
Proof.
  unfold is_nan. rewrite eqb_spec. unfold SFeqb. intro H. apply negb_false_iff in H.
  destruct (SFcompare (Prim2SF a) (Prim2SF a)) as [[]|]; congruence.
Qed.

(** [std_min] returns one of its arguments, and on numbers it is below both. *)
Lemma std_min_spec (a b : float) :
  (std_min a b = a \/ std_min a b = b) /\
  (is_nan a = false -> is_nan b = false ->
   (std_min a b <=? a)%float = true /\ (std_min a b <=? b)%float = true).
Proof.
  unfold std_min. split.
  - destruct (b <? a)%float; auto.
  - intros Ha Hb. apply not_nan_compare in Ha, Hb.
    pose proof (SFcompare_defined _ _ Hb Ha) as Hd.
    pose proof (SFcompare_antisym (Prim2SF b) (Prim2SF a)) as Hs.
    rewrite ltb_spec. unfold SFltb.
    destruct (SFcompare (Prim2SF b) (Prim2SF a)) as [[]|] eqn:E; try congruence;
      rewrite !leb_spec; unfold SFleb; rewrite ?Ha, ?Hb, ?E, ?Hs; simpl; auto.
Qed.

(** ** The timer after a request *)

(** A request that arms a timer leaves it as the only started timer. *)
Lemma request_timer_state (w w' : World) (r : DownSampledImageRequest) (out : list Effect) :
  timer_owned w -> arms_timer w r = true ->
  imageRequestCb r w = Some (tt, w', out) ->
  image_publish_timer_ (node w') = Some (next_handle (ros w)) /\
  timers (ros w') = [(next_handle (ros w), (1 / effective_frequency w r)%float)] /\
  In (E_createTimer (next_handle (ros w)) (1 / effective_frequency w r)%float) out.
Proof.
  intros Ht Ea. rewrite (imageRequestCb_timer r w Ea). intro H.
  apply ok_inj in H. destruct H as [<- <-].
  unfold timer_owned in Ht. split; [reflexivity|]. split.
  - simpl. destruct (image_publish_timer_ (node w)) as [old|]; simpl.
    + destruct Ht as [[p0 Hp0] Hlt]. rewrite Hp0. simpl. rewrite Nat.eqb_refl. simpl.
      destruct (Nat.eqb_spec (next_handle (ros w)) old) as [Hx|Hx]; [lia|reflexivity].
    + rewrite Ht. reflexivity.
  - apply in_cons, in_or_app. right. apply in_eq.
Qed.

Lemma timer_ids_below (w : World) (id : TimerId) :
  timer_owned w -> In id (timer_ids w) -> (id < next_handle (ros w))%nat.
Proof.
  unfold timer_owned, timer_ids. destruct (image_publish_timer_ (node w)) as [h|].
  - intros [[p Hp] Hlt]. rewrite Hp. simpl. intros [<-|[]]. exact Hlt.
  - intros ->. simpl. tauto.
Qed.

Lemma arms_timer_periodic (w : World) (r : DownSampledImageRequest) :
  ONCE <> PUBLISH_FREQ -> mode r = PUBLISH_FREQ ->
  arms_timer w r = (0 <? effective_frequency w r)%float.
Proof.
  intros Hd Hm. unfold arms_timer. rewrite Hm, Z.eqb_refl.
  destruct (Z.eqb_spec PUBLISH_FREQ ONCE) as [E|E]; [congruence|reflexivity].
Qed.

Lemma arms_timer_other (w : World) (r : DownSampledImageRequest) :
  mode r <> PUBLISH_FREQ -> arms_timer w r = false.
Proof.
  intro Hm. unfold arms_timer. apply Z.eqb_neq in Hm. rewrite Hm.
  destruct (mode r =? ONCE); reflexivity.
Qed.

Lemma enabled_timer_started (w : World) (id : TimerId) :
  enabled (TimerFired id) w = true -> timers (ros w) <> [].
Proof. simpl. destruct (timers (ros w)); [discriminate|congruence]. Qed.

(** Only the request handler creates timers. *)
Lemma dispatch_createTimer (e : Event) (w w' : World) (out : list Effect) :
  dispatch e w = Some (tt, w', out) -> filter is_createTimer out <> [] ->
  exists r, e = RequestArrived r /\ last_request_ (node w') = Some r.
Proof.
  destruct e as [c | i ci | r | id].
  - destruct (dispatch_connect c w) as (w1 & o1 & E & _ & _ & _ & _ & _ & _ & Hc). rewrite E.
    intro H. apply ok_inj in H. destruct H as [<- <-]. congruence.
  - simpl. rewrite imageCb_run. intro H. apply ok_inj in H. destruct H as [<- <-].
    destruct (last_request_ (node w)) as [r|]; [|simpl; congruence].
    destruct (mode r =? ALL); [|simpl; congruence].
    rewrite publish_trace_no_createTimer. congruence.
  - simpl. destruct (imageRequestCb_shape r w) as (w1 & tl & E & Hn & _). rewrite E.
    intro H. apply ok_inj in H. destruct H as [<- <-]. intros _.
    exists r. split; [reflexivity|]. rewrite Hn. reflexivity.
  - simpl. rewrite publishTimerCb_run. destruct (last_request_ (node w)) as [r|]; [|discriminate].
    intro H. apply ok_inj in H. destruct H as [<- <-].
    destruct (mode r =? PUBLISH_FREQ); [|simpl; congruence].
    rewrite publish_trace_no_createTimer. congruence.
Qed.

Lemma run_reachable (es : list Event) :
  forall (w w' : World) (out : list Effect),
  reachable w -> feasible es w = true -> run es w = Some (tt, w', out) -> reachable w'.
Proof.
  induction es as [|e es IH]; intros w w' out Hreach Hf Hrun.
  - simpl in Hrun. unfold ret in Hrun. apply ok_inj in Hrun. destruct Hrun as [<- _]. exact Hreach.
  - simpl in Hf. apply andb_prop in Hf. destruct Hf as [Hen Hf].
    apply run_cons_inv in Hrun. destruct Hrun as (w1 & o1 & o2 & E1 & E2 & _).
    rewrite E1 in Hf. apply (IH w1 w' o2); auto.
    eapply reach_step; eauto.
Qed.

(** A PUBLISH_FREQ request whose capped frequency is not positive creates no
    timer and stops none: the timers stay as they were, and a tick that comes
    after it calls [publishCroppedImage]. *)
Lemma nonpositive_periodic_keeps_timers (w : World) (r : DownSampledImageRequest) :
  mode r = PUBLISH_FREQ -> (0 <? effective_frequency w r)%float = false ->
  exists w' out,
    imageRequestCb r w = Some (tt, w', out) /\
    timers (ros w') = timers (ros w) /\
    exists out', publishTimerCb w' = Some (tt, w', out') /\ attempts out' = 1%nat.
Proof.
  intros Hm Hpos.
  assert (Ea : arms_timer w r = false).
  { unfold arms_timer. rewrite Hpos. apply andb_false_r. }
  rewrite (imageRequestCb_plain r w Ea). do 2 eexists. split; [reflexivity|].
  split; [reflexivity|]. rewrite publishTimerCb_run. simpl. rewrite Hm, Z.eqb_refl.
  eexists. split; [reflexivity|]. apply attempts_publish_trace.
Qed.

(** * The claims *)

(** C1 (amended). A request stops the timer armed earlier only when it arms a
    timer itself: then the new timer is the only started one.  A request whose
    mode is not PUBLISH_FREQ leaves the timer handle and the started timers as
    they were, and the ticks that still arrive are ignored. *)
Theorem imageRequestCb_replaces_timer (w : World) (r : DownSampledImageRequest) :
  reachable w ->
  exists w' out,
    imageRequestCb r w = Some (tt, w', out) /\
    (arms_timer w r = true ->
       image_publish_timer_ (node w') = Some (next_handle (ros w)) /\
       timers (ros w') = [(next_handle (ros w), (1 / effective_frequency w r)%float)] /\
       forall id, In id (timer_ids w) -> ~ In id (timer_ids w')) /\
    (mode r <> PUBLISH_FREQ ->
       image_publish_timer_ (node w') = image_publish_timer_ (node w) /\
       timers (ros w') = timers (ros w) /\
       publishTimerCb w' = Some (tt, w', [])).
Proof.
  intro Hreach. destruct (reachable_Inv w Hreach) as (Ht & _).
  destruct (imageRequestCb_shape r w) as (w' & tl & E & Hn & _ & _ & _ & Hplain).
  exists w'. eexists. split; [exact E|]. split.
  - intro Ea. destruct (request_timer_state w w' r _ Ht Ea E) as (Hh & Htm & _).
    repeat split; auto.
    intros id Hin Hin'. apply (timer_ids_below w id Ht) in Hin.
    unfold timer_ids in Hin'. rewrite Htm in Hin'. simpl in Hin'.
    destruct Hin' as [Hx|[]]. lia.
  - intro Hm. destruct (Hplain (arms_timer_other w r Hm)) as (_ & Hros & Hh).
    repeat split; auto.
    + rewrite Hros. reflexivity.
    + rewrite publishTimerCb_run. rewrite Hn. simpl.
      apply Z.eqb_neq in Hm. rewrite Hm. reflexivity.
Qed.

(** C2 (amended). In every reachable state, when the current request has mode
    PUBLISH_FREQ and a positive capped frequency, exactly one timer is started,
    with period 1 / frequency; and never more than one timer is started. *)
Theorem periodic_request_has_timer (w : World) :
  reachable w -> ONCE <> PUBLISH_FREQ ->
  (forall r, last_request_ (node w) = Some r -> mode r = PUBLISH_FREQ ->
     (0 <? effective_frequency w r)%float = true ->
     exists id, image_publish_timer_ (node w) = Some id /\
                timers (ros w) = [(id, (1 / effective_frequency w r)%float)]) /\
  (List.length (timers (ros w)) <= 1)%nat.
Proof.
  intros Hreach Hd. destruct (reachable_Inv w Hreach) as (Ht & _ & _ & Hp). split.
  - intros r Hr Hm Hpos. apply (Hp r Hr). rewrite (arms_timer_periodic w r Hd Hm). exact Hpos.
  - unfold timer_owned in Ht. destruct (image_publish_timer_ (node w)).
    + destruct Ht as [[p Hp'] _]. rewrite Hp'. simpl. lia.
    + rewrite Ht. simpl. lia.
Qed.

(** C4. A ONCE request calls [publishCroppedImage] exactly once, and until the
    next request no event calls it again: a tick of a timer that is still
    running returns at the mode check. *)
Theorem once_request_single_attempt (w : World) (r : DownSampledImageRequest) :
  ONCE <> PUBLISH_FREQ -> ONCE <> ALL -> mode r = ONCE ->
  exists w' out,
    imageRequestCb r w = Some (tt, w', out) /\
    attempts out = 1%nat /\
    publishTimerCb w' = Some (tt, w', []) /\
    forall es, existsb is_request es = false ->
      exists w'' out', run es w' = Some (tt, w'', out') /\ attempts out' = 0%nat.
Proof.
  intros Hp Ha Hm.
  assert (Hp' : (mode r =? PUBLISH_FREQ) = false) by (apply Z.eqb_neq; congruence).
  assert (Ha' : (mode r =? ALL) = false) by (apply Z.eqb_neq; congruence).
  destruct (imageRequestCb_shape r w) as (w' & tl & E & Hn & Hat & _).
  assert (Hr : last_request_ (node w') = Some r) by (rewrite Hn; reflexivity).
  exists w'. eexists. split; [exact E|]. split; [|split].
  - change (attempts ([E_ROS_INFO "Image requested"] ++ publish_trace (store_request r (node w)) ++ tl) = 1%nat).
    rewrite !attempts_app, attempts_publish_trace, Hat. reflexivity.
  - rewrite publishTimerCb_run, Hr, Hp'. reflexivity.
  - intros es Hes. exact (run_quiet es w' r Hr Hp' Ha' Hes).
Qed.

(** C5. For a PUBLISH_FREQ request the frequency is
    [std_min max_video_framerate_ publish_frequency], one of the two and, on
    numbers, below both.  The handler calls [publishCroppedImage] once; when
    the frequency is positive it creates a timer of period 1 / frequency,
    which is then the only started timer.  With a cap of 5 and a request for
    10 the period is 1 / 5. *)
Theorem periodic_request_capped_timer (w : World) (r : DownSampledImageRequest) :
  reachable w -> ONCE <> PUBLISH_FREQ -> mode r = PUBLISH_FREQ ->
  let effectiveHz := std_min (max_video_framerate_ (node w)) (publish_frequency r) in
  exists w' out,
    imageRequestCb r w = Some (tt, w', out) /\
    attempts out = 1%nat /\
    (effectiveHz = max_video_framerate_ (node w) \/ effectiveHz = publish_frequency r) /\
    (is_nan (max_video_framerate_ (node w)) = false -> is_nan (publish_frequency r) = false ->
       (effectiveHz <=? max_video_framerate_ (node w))%float = true /\
       (effectiveHz <=? publish_frequency r)%float = true) /\
    ((0 <? effectiveHz)%float = true ->
       image_publish_timer_ (node w') = Some (next_handle (ros w)) /\
       timers (ros w') = [(next_handle (ros w), (1 / effectiveHz)%float)] /\
       In (E_createTimer (next_handle (ros w)) (1 / effectiveHz)%float) out) /\
    (max_video_framerate_ (node w) = 5%float -> publish_frequency r = 10%float ->
       timers (ros w') = [(next_handle (ros w), (1 / 5)%float)]).
Proof.
  intros Hreach Hd Hm effectiveHz.
  destruct (reachable_Inv w Hreach) as (Ht & _).
  destruct (imageRequestCb_shape r w) as (w' & tl & E & Hn & Hat & _).
  pose proof (std_min_spec (max_video_framerate_ (node w)) (publish_frequency r)) as [Hone Hle].
  assert (Harm : (0 <? effectiveHz)%float = true ->
       image_publish_timer_ (node w') = Some (next_handle (ros w)) /\
       timers (ros w') = [(next_handle (ros w), (1 / effectiveHz)%float)] /\
       In (E_createTimer (next_handle (ros w)) (1 / effectiveHz)%float)
          (E_ROS_INFO "Image requested" :: publish_trace (store_request r (node w)) ++ tl)).
  { intro Hpos. apply (request_timer_state w w' r _ Ht); [|exact E].
    rewrite (arms_timer_periodic w r Hd Hm). exact Hpos. }
  exists w'. eexists. split; [exact E|]. repeat split; auto.
  - change (attempts ([E_ROS_INFO "Image requested"] ++ publish_trace (store_request r (node w)) ++ tl) = 1%nat).
    rewrite !attempts_app, attempts_publish_trace, Hat. reflexivity.
  - apply Hle; assumption.
  - apply Hle; assumption.
  - apply Harm; assumption.
  - apply Harm; assumption.
  - apply Harm; assumption.
  - intros H5 H10. subst effectiveHz. rewrite H5, H10 in Harm.
    apply Harm. reflexivity.
Qed.

(** C6. [imageCb] stores the frame over the cached one.  When no request has
    been received since [onInit] it returns at once.  When the mode of the
    current request is ALL it calls [publishCroppedImage] once, on the frame
    just stored and the current crop configuration.  In every other mode it
    calls nothing. *)
Theorem imageCb_spec (q : option Z) (f : option float) (es : list Event)
    (w : World) (out0 : list Effect) (image_msg : Image) (info_msg : CameraInfo) :
  run es (onInit q f) = Some (tt, w, out0) ->
  exists w' out,
    imageCb image_msg info_msg w = Some (tt, w', out) /\
    node w' = set_last_info_msg_ (Some info_msg) (set_last_image_msg_ (Some image_msg) (node w)) /\
    ros w' = ros w /\
    last_image_msg_ (node w') = Some image_msg /\
    last_info_msg_ (node w') = Some info_msg /\
    (existsb is_request es = false -> out = []) /\
    (forall r, last_request_ (node w) = Some r -> mode r = ALL ->
       attempts out = 1%nat /\
       out = E_publishCroppedImage ::
             E_processImage (crop_decimate_config_ (node w)) image_msg info_msg ::
             match processImage (crop_decimate_config_ (node w)) image_msg info_msg with
             | Some (image_out, camera_info_out) => [E_publish image_out camera_info_out]
             | None => []
             end) /\
    (forall r, last_request_ (node w) = Some r -> mode r <> ALL -> out = []).
Proof.
  intro Hrun. rewrite imageCb_run. do 2 eexists. split; [reflexivity|].
  repeat split.
  - intro Hes. rewrite (run_same_request es _ _ _ Hes Hrun). reflexivity.
  - rewrite H, H0, Z.eqb_refl. apply attempts_publish_trace.
  - rewrite H, H0, Z.eqb_refl. reflexivity.
  - intros r Hr Hm. rewrite Hr. apply Z.eqb_neq in Hm. rewrite Hm. reflexivity.
Qed.

(** C7. [publishCroppedImage] changes no state and never faults.  Without a
    cached image or camera info it neither transforms nor publishes.  With
    both it calls [processImage] once, and publishes the outputs exactly when
    the transform succeeds.  Hence from a state without a cached frame, a
    request followed by any events other than frames publishes nothing. *)
Theorem publishCroppedImage_spec (w : World) :
  exists out,
    publishCroppedImage w = Some (tt, w, out) /\
    (last_image_msg_ (node w) = None \/ last_info_msg_ (node w) = None ->
       out = [E_publishCroppedImage]) /\
    (forall image info,
       last_image_msg_ (node w) = Some image -> last_info_msg_ (node w) = Some info ->
       transforms out = 1%nat /\
       filter is_transform out = [E_processImage (crop_decimate_config_ (node w)) image info] /\
       filter is_publish out =
         match processImage (crop_decimate_config_ (node w)) image info with
         | Some (image_out, camera_info_out) => [E_publish image_out camera_info_out]
         | None => []
         end) /\
    (last_image_msg_ (node w) = None \/ last_info_msg_ (node w) = None ->
     forall r es, existsb is_frame es = false ->
       exists w' out',
         run (RequestArrived r :: es) w = Some (tt, w', out') /\
         publishes out' = 0%nat /\ transforms out' = 0%nat).
Proof.
  exists (publish_trace (node w)). split; [apply publishCroppedImage_run|]. repeat split.
  - apply publish_trace_no_frame.
  - unfold publish_trace, transforms. rewrite H, H0. simpl.
    destruct (processImage (crop_decimate_config_ (node w)) image info) as [[io co]|]; reflexivity.
  - unfold publish_trace. rewrite H, H0. simpl.
    destruct (processImage (crop_decimate_config_ (node w)) image info) as [[io co]|]; reflexivity.
  - unfold publish_trace. rewrite H, H0. simpl.
    destruct (processImage (crop_decimate_config_ (node w)) image info) as [[io co]|]; reflexivity.
  - intros Hn r es Hes.
    destruct (imageRequestCb_shape r w) as (w1 & tl & E & Hnode & _ & _ & _ & _).
    assert (Hr1 : last_request_ (node w1) <> None) by (rewrite Hnode; simpl; congruence).
    assert (Hd : dispatch (RequestArrived r) w = Some (tt, w1, E_ROS_INFO "Image requested" :: publish_trace (store_request r (node w)) ++ tl)) by exact E.
    destruct (dispatch_no_frame (RequestArrived r) w w1 _ Hn eq_refl Hd) as (P1 & T1 & Hn1).
    destruct (run_no_frame es w1 Hr1 Hn1 Hes) as (w2 & o2 & E2 & P2 & T2).
    exists w2. eexists. split.
    + change (run (RequestArrived r :: es) w) with (bind (dispatch (RequestArrived r)) (fun _ => run es) w).
      unfold bind. rewrite Hd, E2. reflexivity.
    + rewrite publishes_app, transforms_app, P1, P2, T1, T2. auto.
Qed.

(** C8. After [connectCb] has run for a consumer count, the upstream
    subscription is open exactly when the count is not zero, at most one
    subscription is open, and running it again for the same count changes
    nothing and does nothing. *)
Theorem connectCb_gate (w : World) (count : N) :
  reachable w ->
  exists w' out,
    dispatch (SubscribersChanged count) w = Some (tt, w', out) /\
    (subscriptions (ros w') <> [] <-> count <> 0%N) /\
    (sub_ (node w') <> None <-> count <> 0%N) /\
    (List.length (subscriptions (ros w')) <= 1)%nat /\
    dispatch (SubscribersChanged count) w' = Some (tt, w', []) /\
    connectCb w' = Some (tt, w', []).
Proof.
  intro Hreach. destruct (reachable_Inv w Hreach) as (_ & Hs & _).
  unfold sub_owned in Hs. destruct w as [n rs]. simpl in Hs.
  simpl. unfold bind, modifyRos. rewrite !connectCb_run. simpl.
  destruct (N.eqb_spec count 0) as [Hc|Hc]; destruct (sub_ n) as [id|] eqn:Es.
  - do 2 eexists. split; [reflexivity|]. simpl.
    rewrite Hs. simpl. rewrite Nat.eqb_refl. simpl.
    rewrite !connectCb_run. simpl. subst count. simpl.
    repeat split; try tauto; try congruence. lia.
  - do 2 eexists. split; [reflexivity|]. simpl.
    rewrite Hs, Es. simpl.
    rewrite !connectCb_run. simpl. subst count. simpl. rewrite Es.
    repeat split; try tauto; try congruence. lia.
  - do 2 eexists. split; [reflexivity|]. simpl.
    rewrite Hs, Es. simpl.
    rewrite !connectCb_run. simpl.
    destruct (N.eqb_spec count 0) as [Hc'|_]; [contradiction|]. rewrite Es.
    repeat split; try tauto; try congruence. lia.
  - do 2 eexists. split; [reflexivity|]. simpl.
    rewrite Hs. simpl.
    rewrite !connectCb_run. simpl.
    destruct (N.eqb_spec count 0) as [Hc'|_]; [contradiction|].
    repeat split; try tauto; try congruence. lia.
Qed.

(** C9. A request whose mode is none of ONCE, PUBLISH_FREQ and ALL is handled
    like any other: the handler returns, stores the request and the crop
    configuration read from it, calls [publishCroppedImage] once, creates no
    timer and leaves the timer handle and the started timers as they were. *)
Theorem unrecognized_mode_free_run (w : World) (r : DownSampledImageRequest) :
  mode r <> ONCE -> mode r <> PUBLISH_FREQ -> mode r <> ALL ->
  exists w' out,
    imageRequestCb r w = Some (tt, w', out) /\
    attempts out = 1%nat /\
    filter is_createTimer out = [] /\
    timers (ros w') = timers (ros w) /\
    image_publish_timer_ (node w') = image_publish_timer_ (node w) /\
    last_request_ (node w') = Some r /\
    crop_decimate_config_ (node w') =
      CropDecimate.mkCropDecimateConfig (binning_x r) (binning_y r)
        (sensor_msgs.width (roi r)) (sensor_msgs.height (roi r))
        (sensor_msgs.x_offset (roi r)) (sensor_msgs.y_offset (roi r)) /\
    crop_decimate_configured_ (node w') = true.
Proof.
  intros _ Hp _.
  rewrite (imageRequestCb_plain r w (arms_timer_other w r Hp)).
  do 2 eexists. split; [reflexivity|]. repeat split.
  - change (attempts ([E_ROS_INFO "Image requested"] ++ publish_trace (store_request r (node w))) = 1%nat).
    rewrite attempts_app, attempts_publish_trace. reflexivity.
  - change (filter is_createTimer (publish_trace (store_request r (node w))) = []).
    apply publish_trace_no_createTimer.
Qed.

(** C10. Whenever a timer tick can be delivered the stored request is not
    null, so [publishTimerCb] returns.  A timer is created only by the request
    handler, which has stored the request by then, and no callback sets the
    stored request back to null. *)
Theorem timer_tick_request_present (w : World) (id : TimerId) :
  reachable w -> enabled (TimerFired id) w = true ->
  last_request_ (node w) <> None /\
  (exists w' out, publishTimerCb w = Some (tt, w', out)) /\
  (forall e w0 w1 out, dispatch e w0 = Some (tt, w1, out) ->
     filter is_createTimer out <> [] ->
     exists r, e = RequestArrived r /\ last_request_ (node w1) = Some r) /\
  (forall e w0 w1 out, dispatch e w0 = Some (tt, w1, out) ->
     last_request_ (node w0) <> None -> last_request_ (node w1) <> None).
Proof.
  intros Hreach Hen. destruct (reachable_Inv w Hreach) as (Ht & _ & Hr & _).
  apply enabled_timer_started in Hen.
  assert (Hreq : last_request_ (node w) <> None).
  { apply Hr. unfold timer_owned in Ht.
    destruct (image_publish_timer_ (node w)); congruence. }
  split; [exact Hreq|]. split; [|split].
  - rewrite publishTimerCb_run. destruct (last_request_ (node w)); [eauto|congruence].
  - intros e w0 w1 out. apply dispatch_createTimer.
  - intros e w0 w1 out. apply dispatch_keeps_request.
Qed.

(** * Further properties of the callbacks *)

(** The crop configuration [imageRequestCb] reads from a request. *)
Definition request_config (r : DownSampledImageRequest) : CropDecimate.CropDecimateConfig :=
  CropDecimate.mkCropDecimateConfig (binning_x r) (binning_y r)
    (sensor_msgs.width (roi r)) (sensor_msgs.height (roi r))
    (sensor_msgs.x_offset (roi r)) (sensor_msgs.y_offset (roi r)).

(** The last request among some events, [acc] when there is none. *)
Definition latest_request (acc : option DownSampledImageRequest) (es : list Event) :
    option DownSampledImageRequest :=
  fold_left (fun a e => match e with RequestArrived r => Some r | _ => a end) es acc.

(** The last frame among some events, [acc] when there is none. *)
Definition latest_frame (acc : option Image * option CameraInfo) (es : list Event) :
    option Image * option CameraInfo :=
  fold_left (fun a e => match e with ImageArrived i c => (Some i, Some c) | _ => a end) es acc.

Definition frame_event (p : Image * CameraInfo) : Event := ImageArrived (fst p) (snd p).

Definition is_subscribe (e : Effect) : bool :=
  match e with E_subscribeCamera _ _ => true | _ => false end.

Definition is_shutdown (e : Effect) : bool :=
  match e with E_shutdown _ => true | _ => false end.

Definition is_stopTimer (e : Effect) : bool :=
  match e with E_stopTimer _ => true | _ => false end.

(** How often a trace does something. *)
Definition count (p : Effect -> bool) (out : list Effect) : nat := List.length (filter p out).

(** Every started timer runs at a positive frequency that is at most the
    configured maximum. *)
Definition timers_within_cap (w : World) : Prop :=
  forall id period, In (id, period) (timers (ros w)) ->
  exists hz, period = (1 / hz)%float /\ (0 <? hz)%float = true /\
             (hz <=? max_video_framerate_ (node w))%float = true.

Lemma count_app (p : Effect -> bool) (a b : list Effect) :
  count p (a ++ b) = (count p a + count p b)%nat.
Proof. unfold count. rewrite filter_app, length_app. reflexivity. Qed.

(** ** What a callback leaves alone *)

(** Everything but a request leaves the request, the crop configuration, the
    parameters, the timer handle and the timers as they are. *)
Lemma dispatch_other (e : Event) (w w' : World) (out : list Effect) :
  is_request e = false -> dispatch e w = Some (tt, w', out) ->
  queue_size_ (node w') = queue_size_ (node w) /\
  max_video_framerate_ (node w') = max_video_framerate_ (node w) /\
  last_request_ (node w') = last_request_ (node w) /\
  crop_decimate_config_ (node w') = crop_decimate_config_ (node w) /\
  crop_decimate_configured_ (node w') = crop_decimate_configured_ (node w) /\
  image_publish_timer_ (node w') = image_publish_timer_ (node w) /\
  timers (ros w') = timers (ros w).
Proof.
  destruct e as [c | i ci | r | id]; intro Hq; try discriminate.
  - simpl. unfold bind, modifyRos. rewrite connectCb_run. simpl.
    intro H. apply ok_inj in H. destruct H as [<- _].
    destruct (c =? 0)%N; destruct (sub_ (node w)); simpl; repeat split; reflexivity.
  - simpl. rewrite imageCb_run. intro H. apply ok_inj in H. destruct H as [<- _].
    simpl. repeat split; reflexivity.
  - simpl. rewrite publishTimerCb_run.
    destruct (last_request_ (node w)) as [r|] eqn:Er; [|discriminate].
    intro H. apply ok_inj in H. destruct H as [<- _]. repeat split; auto.
Qed.

(** Everything but a frame leaves the cached frame as it is. *)
Lemma dispatch_keeps_frame (e : Event) (w w' : World) (out : list Effect) :
  is_frame e = false -> dispatch e w = Some (tt, w', out) ->
  last_image_msg_ (node w') = last_image_msg_ (node w) /\
  last_info_msg_ (node w') = last_info_msg_ (node w).
Proof.
  destruct e as [c | i ci | r | id]; intro Hq; try discriminate.
  - destruct (dispatch_connect c w) as (w1 & o1 & E & _ & Hi & Hc & _). rewrite E.
    intro H. apply ok_inj in H. destruct H as [<- _]. auto.
  - simpl. destruct (imageRequestCb_shape r w) as (w1 & tl & E & Hn & _). rewrite E.
    intro H. apply ok_inj in H. destruct H as [<- _]. rewrite Hn. simpl. auto.
  - simpl. rewrite publishTimerCb_run. destruct (last_request_ (node w)) as [r|]; [|discriminate].
    intro H. apply ok_inj in H. destruct H as [<- _]. auto.
Qed.

(** A request keeps the parameters, the cached frame and the subscription,
    and stores itself and its crop configuration. *)
Lemma request_node (r : DownSampledImageRequest) (w w' : World) (out : list Effect) :
  imageRequestCb r w = Some (tt, w', out) ->
  queue_size_ (node w') = queue_size_ (node w) /\
  max_video_framerate_ (node w') = max_video_framerate_ (node w) /\
  sub_ (node w') = sub_ (node w) /\
  last_request_ (node w') = Some r /\
  crop_decimate_config_ (node w') = request_config r /\
  crop_decimate_configured_ (node w') = true /\
  subscriptions (ros w') = subscriptions (ros w) /\
  num_subscribers (ros w') = num_subscribers (ros w).
Proof.
  destruct (arms_timer w r) eqn:Ea.
  - rewrite (imageRequestCb_timer r w Ea). intro H. apply ok_inj in H. destruct H as [<- _].
    simpl. destruct (image_publish_timer_ (node w)); simpl; repeat split; reflexivity.
  - rewrite (imageRequestCb_plain r w Ea). intro H. apply ok_inj in H. destruct H as [<- _].
    simpl. repeat split; reflexivity.
Qed.

Lemma run_nil_inv (w w' : World) (out : list Effect) :
  run [] w = Some (tt, w', out) -> w' = w /\ out = [].
Proof. simpl. unfold ret. intro H. apply ok_inj in H. destruct H as [<- <-]. auto. Qed.

Lemma run_Inv (es : list Event) :
  forall (w w' : World) (out : list Effect),
  Inv w -> run es w = Some (tt, w', out) -> Inv w'.
Proof.
  induction es as [|e es IH]; intros w w' out HI Hrun.
  - apply run_nil_inv in Hrun. destruct Hrun as [-> _]. exact HI.
  - apply run_cons_inv in Hrun. destruct Hrun as (w1 & o1 & o2 & E1 & E2 & _).
    apply (IH w1 w' o2); [|exact E2]. exact (dispatch_Inv e w w1 o1 HI E1).
Qed.

(** X1. The two parameters read by [onInit] are never written again: after
    any events, [queue_size_] and [max_video_framerate_] are the values of the
    parameter server, or 5 and 100.0 where it has none. *)
Theorem parameters_never_change (q : option Z) (f : option float) (es : list Event)
    (w : World) (out : list Effect) :
  run es (onInit q f) = Some (tt, w, out) ->
  queue_size_ (node w) = match q with Some v => v | None => 5 end /\
  max_video_framerate_ (node w) = match f with Some v => v | None => 100%float end.
Proof.
  assert (G : forall es w0 w1 o, run es w0 = Some (tt, w1, o) ->
            queue_size_ (node w1) = queue_size_ (node w0) /\
            max_video_framerate_ (node w1) = max_video_framerate_ (node w0)).
  { clear. induction es as [|e es' IH]; intros w0 w1 o Hrun.
    - apply run_nil_inv in Hrun. destruct Hrun as [-> _]. auto.
    - apply run_cons_inv in Hrun. destruct Hrun as (w2 & o1 & o2 & E1 & E2 & _).
      destruct (IH w2 w1 o2 E2) as [Hq Hm]. rewrite Hq, Hm.
      destruct (is_request e) eqn:Hr.
      + destruct e as [c | i ci | r | id]; try discriminate.
        destruct (request_node r w0 w2 o1 E1) as (Hq' & Hm' & _). auto.
      + destruct (dispatch_other e w0 w2 o1 Hr E1) as (Hq' & Hm' & _). auto. }
  intro Hrun. apply G in Hrun. exact Hrun.
Qed.

(** Only [connectCb] touches the subscription. *)
Lemma dispatch_keeps_gate (e : Event) (w w' : World) (out : list Effect) :
  (forall c, e <> SubscribersChanged c) -> dispatch e w = Some (tt, w', out) ->
  sub_ (node w') = sub_ (node w) /\
  subscriptions (ros w') = subscriptions (ros w) /\
  num_subscribers (ros w') = num_subscribers (ros w).
Proof.
  destruct e as [c | i ci | r | id]; intro Hc.
  - exfalso. exact (Hc c eq_refl).
  - simpl. rewrite imageCb_run. intro H. apply ok_inj in H. destruct H as [<- _].
    simpl. auto.
  - simpl. intro H. destruct (request_node r w w' out H) as (_ & _ & Hs & _ & _ & _ & Hl & Hn).
    auto.
  - simpl. rewrite publishTimerCb_run. destruct (last_request_ (node w)) as [r|]; [|discriminate].
    intro H. apply ok_inj in H. destruct H as [<- _]. auto.
Qed.

Lemma reachable_gate (w : World) :
  reachable w -> (sub_ (node w) <> None <-> num_subscribers (ros w) <> 0%N).
Proof.
  induction 1 as [q f | w e w' out _ IH _ Hd].
  - simpl. split; intro H; exfalso; apply H; reflexivity.
  - destruct e as [c | i ci | r | id].
    + revert Hd. simpl. unfold bind, modifyRos. rewrite connectCb_run. simpl.
      intro H. apply ok_inj in H. destruct H as [<- _].
      destruct (N.eqb_spec c 0) as [Hc|Hc]; destruct (sub_ (node w)) as [s|] eqn:Es;
        simpl; rewrite ?Es; split; intro H; congruence.
    + assert (Hne : forall c, ImageArrived i ci <> SubscribersChanged c) by (intro; discriminate).
      destruct (dispatch_keeps_gate _ w w' out Hne Hd) as (Hs & _ & Hn).
      rewrite Hs, Hn. exact IH.
    + assert (Hne : forall c, RequestArrived r <> SubscribersChanged c) by (intro; discriminate).
      destruct (dispatch_keeps_gate _ w w' out Hne Hd) as (Hs & _ & Hn).
      rewrite Hs, Hn. exact IH.
    + assert (Hne : forall c, TimerFired id <> SubscribersChanged c) by (intro; discriminate).
      destruct (dispatch_keeps_gate _ w w' out Hne Hd) as (Hs & _ & Hn).
      rewrite Hs, Hn. exact IH.
Qed.

(** X2. In every reachable state the upstream subscription is open exactly
    when the consumer count seen by the last [connectCb] is not zero, so a
    frame can only arrive while the output has a consumer. *)
Theorem subscription_follows_consumers (w : World) :
  reachable w ->
  (subscriptions (ros w) <> [] <-> num_subscribers (ros w) <> 0%N) /\
  (sub_ (node w) <> None <-> num_subscribers (ros w) <> 0%N) /\
  (forall i c, enabled (ImageArrived i c) w = true -> num_subscribers (ros w) <> 0%N).
Proof.
  intro Hreach. pose proof (reachable_gate w Hreach) as Hg.
  destruct (reachable_Inv w Hreach) as (_ & Hs & _). unfold sub_owned in Hs.
  assert (Hopen : subscriptions (ros w) <> [] <-> num_subscribers (ros w) <> 0%N).
  { rewrite <- Hg. rewrite Hs. destruct (sub_ (node w)); split; congruence. }
  split; [exact Hopen|]. split; [exact Hg|].
  intros i c Hen. apply Hopen. simpl in Hen.
  destruct (subscriptions (ros w)); [discriminate|congruence].
Qed.

(** The crop configuration of a node agrees with its stored request. *)
Definition request_synced (n : Nodelet) : Prop :=
  match last_request_ n with
  | Some r => crop_decimate_config_ n = request_config r /\ crop_decimate_configured_ n = true
  | None => crop_decimate_config_ n = default_config /\ crop_decimate_configured_ n = false
  end.

Lemma run_request_synced (es : list Event) :
  forall (w w' : World) (out : list Effect),
  run es w = Some (tt, w', out) -> request_synced (node w) ->
  last_request_ (node w') = latest_request (last_request_ (node w)) es /\
  request_synced (node w').
Proof.
  induction es as [|e es IH]; intros w w' out Hrun Hs.
  - apply run_nil_inv in Hrun. destruct Hrun as [-> _]. auto.
  - apply run_cons_inv in Hrun. destruct Hrun as (w1 & o1 & o2 & E1 & E2 & _).
    destruct (is_request e) eqn:Hr.
    + destruct e as [c | i ci | r | id]; try discriminate.
      destruct (request_node r w w1 o1 E1) as (_ & _ & _ & Hl & Hc & Hf & _).
      assert (Hs1 : request_synced (node w1)) by (unfold request_synced; rewrite Hl; auto).
      destruct (IH w1 w' o2 E2 Hs1) as [H1 H2]. rewrite Hl in H1. auto.
    + destruct (dispatch_other e w w1 o1 Hr E1) as (_ & _ & Hl & Hc & Hf & _).
      assert (Hs1 : request_synced (node w1)).
      { unfold request_synced in *. rewrite Hl, Hc, Hf. exact Hs. }
      destruct (IH w1 w' o2 E2 Hs1) as [H1 H2]. rewrite Hl in H1.
      split; [|exact H2]. rewrite H1.
      destruct e; try discriminate; reflexivity.
Qed.

(** X3. After any events the stored request is the last request that
    arrived, and the crop configuration and its flag are the ones of that
    request: a request replaces the one before it as a whole.  While no
    request has arrived the configuration is the default-constructed one and
    the flag is false. *)
Theorem request_state_follows_history (q : option Z) (f : option float) (es : list Event)
    (w : World) (out : list Effect) :
  run es (onInit q f) = Some (tt, w, out) ->
  last_request_ (node w) = latest_request None es /\
  match latest_request None es with
  | Some r =>
      crop_decimate_config_ (node w) = request_config r /\
      crop_decimate_configured_ (node w) = true
  | None =>
      crop_decimate_config_ (node w) = default_config /\
      crop_decimate_configured_ (node w) = false
  end.
Proof.
  intro Hrun.
  assert (H0 : request_synced (node (onInit q f))) by (unfold request_synced; simpl; auto).
  destruct (run_request_synced es _ w out Hrun H0) as [Hl Hs].
  simpl in Hl. split; [exact Hl|]. unfold request_synced in Hs. rewrite Hl in Hs. exact Hs.
Qed.

Lemma run_frame_cache (es : list Event) :
  forall (w w' : World) (out : list Effect),
  run es w = Some (tt, w', out) ->
  (last_image_msg_ (node w'), last_info_msg_ (node w')) =
  latest_frame (last_image_msg_ (node w), last_info_msg_ (node w)) es.
Proof.
  induction es as [|e es IH]; intros w w' out Hrun.
  - apply run_nil_inv in Hrun. destruct Hrun as [-> _]. reflexivity.
  - apply run_cons_inv in Hrun. destruct Hrun as (w1 & o1 & o2 & E1 & E2 & _).
    rewrite (IH w1 w' o2 E2). destruct (is_frame e) eqn:Hf.
    + destruct e as [c | i ci | r | id]; try discriminate.
      revert E1. simpl. rewrite imageCb_run. intro H. apply ok_inj in H. destruct H as [<- _].
      reflexivity.
    + destruct (dispatch_keeps_frame e w w1 o1 Hf E1) as [Hi Hc]. rewrite Hi, Hc.
      destruct e; try discriminate; reflexivity.
Qed.

(** X4. After any events the cached image and camera info are those of the
    last frame that arrived, both of the same arrival; they are both null
    exactly while no frame has arrived, and nothing but a frame changes them:
    they survive the shutdown of the subscription. *)
Theorem frame_cache_follows_history (q : option Z) (f : option float) (es : list Event)
    (w : World) (out : list Effect) :
  run es (onInit q f) = Some (tt, w, out) ->
  (last_image_msg_ (node w), last_info_msg_ (node w)) = latest_frame (None, None) es /\
  (last_image_msg_ (node w) = None <-> last_info_msg_ (node w) = None) /\
  (last_image_msg_ (node w) = None <-> existsb is_frame es = false).
Proof.
  intro Hrun. pose proof (run_frame_cache es _ w out Hrun) as H. simpl in H.
  split; [exact H|].
  assert (G : forall es acc,
            (fst acc = None <-> snd acc = None) ->
            (fst (latest_frame acc es) = None <-> snd (latest_frame acc es) = None) /\
            (fst (latest_frame acc es) = None <->
             fst acc = None /\ existsb is_frame es = false)).
  { clear. induction es as [|e es' IH]; intros acc Hacc.
    - simpl. tauto.
    - destruct e as [c | i ci | r | id]; simpl;
        try (destruct (IH acc Hacc) as [H1 H2]; split; [exact H1|exact H2]).
      assert (Hp : fst (Some i, Some ci) = None <-> snd (Some i, Some ci) = None)
        by (simpl; split; discriminate).
      destruct (IH (Some i, Some ci) Hp) as [H1 H2]. split; [exact H1|].
      unfold latest_frame in *. simpl in H2. rewrite H2.
      split; [intros [Hx _]; discriminate | intros [_ Hx]; discriminate]. }
  assert (H0 : fst (@None Image, @None CameraInfo) = None <-> snd (@None Image, @None CameraInfo) = None)
    by (simpl; tauto).
  destruct (G es (None, None) H0) as [G1 G2].
  rewrite <- H in G1, G2. simpl in G1, G2. split; [exact G1|].
  rewrite G2. tauto.
Qed.

(** ** The rate of the timers *)

Lemma SFcompare_right_defined (x y : spec_float) (c : comparison) :
  SFcompare x y = Some c -> SFcompare y y = Some Eq.
Proof.
  destruct x as [sx|sx| |sx mx ex], y as [sy|sy| |sy my ey]; simpl; try discriminate;
    intros _; try reflexivity; try (destruct sy; reflexivity);
    destruct sy; rewrite Z.compare_refl, Pos.compare_cont_refl; reflexivity.
Qed.

(** A positive capped frequency is at most the cap. *)
Lemma std_min_capped (a b : float) :
  (0 <? std_min a b)%float = true -> (std_min a b <=? a)%float = true.
Proof.
  unfold std_min. destruct (b <? a)%float eqn:E; intro Hpos.
  - rewrite ltb_spec in E. rewrite leb_spec. unfold SFltb in E. unfold SFleb.
    destruct (SFcompare (Prim2SF b) (Prim2SF a)) as [[]|]; congruence.
  - rewrite ltb_spec in Hpos. rewrite leb_spec. unfold SFltb in Hpos. unfold SFleb.
    destruct (SFcompare (Prim2SF 0) (Prim2SF a)) as [c|] eqn:Ec; [|discriminate].
    rewrite (SFcompare_right_defined _ _ c Ec). reflexivity.
Qed.

(** X5. In every reachable state every started timer has period 1 / hz for
    a frequency hz that is positive and at most [max_video_framerate_]: no
    request makes the nodelet publish periodically faster than the cap. *)
Theorem timers_never_exceed_cap (w : World) :
  reachable w -> timers_within_cap w.
Proof.
  induction 1 as [q f | w e w' out Hreach IH _ Hd].
  - intros id p Hin. simpl in Hin. contradiction.
  - destruct (reachable_Inv w Hreach) as (Ht & _).
    destruct (is_request e) eqn:Hr.
    + destruct e as [c | i ci | r | id]; try discriminate. simpl in Hd.
      destruct (request_node r w w' out Hd) as (_ & Hm & _).
      destruct (arms_timer w r) eqn:Ea.
      * destruct (request_timer_state w w' r out Ht Ea Hd) as (_ & Htm & _).
        intros id p Hin. rewrite Htm in Hin. destruct Hin as [Hin|[]].
        inversion Hin; subst. exists (effective_frequency w r).
        unfold arms_timer in Ea. apply andb_prop in Ea. destruct Ea as [_ Hpos].
        split; [reflexivity|]. split; [exact Hpos|].
        rewrite Hm. apply std_min_capped. exact Hpos.
      * rewrite (imageRequestCb_plain r w Ea) in Hd. apply ok_inj in Hd. destruct Hd as [<- _].
        exact IH.
    + destruct (dispatch_other e w w' out Hr Hd) as (_ & Hm & _ & _ & _ & _ & Htm).
      intros id p Hin. rewrite Htm in Hin. rewrite Hm. exact (IH id p Hin).
Qed.

(** ** Calls of [publishCroppedImage] along a run *)

Lemma publish_trace_full (n : Nodelet) (i : Image) (c : CameraInfo) :
  last_image_msg_ n = Some i -> last_info_msg_ n = Some c ->
  publish_trace n =
  E_publishCroppedImage :: E_processImage (crop_decimate_config_ n) i c ::
  match processImage (crop_decimate_config_ n) i c with
  | Some (image_out, camera_info_out) => [E_publish image_out camera_info_out]
  | None => []
  end.
Proof. unfold publish_trace. intros -> ->. reflexivity. Qed.

Lemma publish_trace_counts (n : Nodelet) :
  (publishes (publish_trace n) <= transforms (publish_trace n))%nat /\
  (transforms (publish_trace n) <= 1)%nat /\
  (last_image_msg_ n <> None -> last_info_msg_ n <> None ->
   transforms (publish_trace n) = 1%nat).
Proof.
  unfold publish_trace, publishes, transforms.
  destruct (last_image_msg_ n) as [i|]; [destruct (last_info_msg_ n) as [c|]|]; simpl;
    try (repeat split; try lia; congruence).
  destruct (processImage (crop_decimate_config_ n) i c) as [[io co]|]; simpl;
    repeat split; lia.
Qed.

(** A call of [publishCroppedImage] touches neither timers nor subscriptions. *)
Lemma publish_trace_quiet (p : Effect -> bool) (n : Nodelet) :
  p E_publishCroppedImage = false ->
  (forall cfg i c, p (E_processImage cfg i c) = false) ->
  (forall i c, p (E_publish i c) = false) ->
  count p (publish_trace n) = 0%nat.
Proof.
  intros H1 H2 H3. unfold publish_trace, count. simpl. rewrite H1.
  destruct (last_image_msg_ n) as [i|]; [destruct (last_info_msg_ n) as [c|]|]; simpl; auto.
  rewrite H2. destruct (processImage (crop_decimate_config_ n) i c) as [[io co]|]; simpl;
    rewrite ?H3; reflexivity.
Qed.

Lemma dispatch_before_request (e : Event) (w w' : World) (out : list Effect) :
  last_request_ (node w) = None -> is_request e = false ->
  dispatch e w = Some (tt, w', out) ->
  attempts out = 0%nat /\ transforms out = 0%nat /\ publishes out = 0%nat /\
  last_request_ (node w') = None /\ (forall id, e <> TimerFired id).
Proof.
  intros Hn Hq. destruct e as [c | i ci | r | id]; try discriminate.
  - destruct (dispatch_connect c w) as (w1 & o1 & E & Hr & _ & _ & Ha & Hp & Ht & _).
    rewrite E. intro H. apply ok_inj in H. destruct H as [<- <-].
    repeat split; try assumption; try congruence.
  - simpl. rewrite imageCb_run, Hn. intro H. apply ok_inj in H. destruct H as [<- <-].
    repeat split; try assumption; try reflexivity; congruence.
  - simpl. rewrite publishTimerCb_run, Hn. discriminate.
Qed.

(** X6. Until the first request arrives no callback reaches
    [publishCroppedImage]: frames are cached and the subscription follows the
    consumers, but nothing is transformed or published.  A timer tick cannot
    be among the events, because no timer exists yet. *)
Theorem nothing_before_first_request (es : list Event) (w w' : World) (out : list Effect) :
  last_request_ (node w) = None -> existsb is_request es = false ->
  run es w = Some (tt, w', out) ->
  attempts out = 0%nat /\ transforms out = 0%nat /\ publishes out = 0%nat /\
  last_request_ (node w') = None /\
  (forall id, ~ In (TimerFired id) es).
Proof.
  revert w w' out. induction es as [|e es IH]; intros w w' out Hn Hq Hrun.
  - apply run_nil_inv in Hrun. destruct Hrun as [-> ->]. repeat split; auto.
  - simpl in Hq. apply orb_false_elim in Hq. destruct Hq as [He Hes].
    apply run_cons_inv in Hrun. destruct Hrun as (w1 & o1 & o2 & E1 & E2 & ->).
    destruct (dispatch_before_request e w w1 o1 Hn He E1) as (A1 & T1 & P1 & Hn1 & Hne).
    destruct (IH w1 w' o2 Hn1 Hes E2) as (A2 & T2 & P2 & Hn2 & Hnin).
    rewrite attempts_app, transforms_app, publishes_app, A1, A2, T1, T2, P1, P2.
    repeat split; auto.
    intros id [Hx|Hx]; [exact (Hne id Hx)|exact (Hnin id Hx)].
Qed.

Lemma dispatch_counts (e : Event) (w w' : World) (out : list Effect) :
  dispatch e w = Some (tt, w', out) ->
  (publishes out <= transforms out)%nat /\ (transforms out <= attempts out)%nat /\
  (last_image_msg_ (node w) <> None -> last_info_msg_ (node w) <> None ->
   transforms out = attempts out /\
   last_image_msg_ (node w') <> None /\ last_info_msg_ (node w') <> None).
Proof.
  destruct e as [c | i ci | r | id].
  - destruct (dispatch_connect c w) as (w1 & o1 & E & _ & Hi & Hc & Ha & Hp & Ht & _).
    rewrite E. intro H. apply ok_inj in H. destruct H as [<- <-].
    rewrite Ha, Hp, Ht, Hi, Hc. split; [lia|]. split; [lia|]. intros Hi' Hc'.
    repeat split; assumption.
  - simpl. rewrite imageCb_run. intro H. apply ok_inj in H. destruct H as [<- <-].
    set (n' := set_last_info_msg_ (Some ci) (set_last_image_msg_ (Some i) (node w))).
    assert (Hfull : transforms (publish_trace n') = 1%nat).
    { apply publish_trace_counts; simpl; congruence. }
    destruct (publish_trace_counts n') as (Hp & Ht & _).
    pose proof (attempts_publish_trace n') as Ha.
    assert (Hi1 : last_image_msg_ n' <> None) by (simpl; congruence).
    assert (Hc1 : last_info_msg_ n' <> None) by (simpl; congruence).
    destruct (last_request_ (node w)) as [r|]; [destruct (mode r =? ALL)|];
      (split; [first [lia | reflexivity]|]; split; [first [lia | reflexivity]|]; intros _ _;
       split; [first [lia | reflexivity]|]; split; assumption).
  - simpl. destruct (imageRequestCb_shape r w) as (w1 & tl & E & Hn & Ha & Hp & Ht & _).
    rewrite E. intro H. apply ok_inj in H. destruct H as [<- <-].
    change (E_ROS_INFO "Image requested" :: publish_trace (store_request r (node w)) ++ tl)
      with ([E_ROS_INFO "Image requested"] ++ publish_trace (store_request r (node w)) ++ tl).
    rewrite !attempts_app, !transforms_app, !publishes_app, Ha, Hp, Ht.
    destruct (publish_trace_counts (store_request r (node w))) as (Hp' & Ht' & Hfull).
    rewrite attempts_publish_trace.
    change (publishes [E_ROS_INFO "Image requested"]) with 0%nat.
    change (transforms [E_ROS_INFO "Image requested"]) with 0%nat.
    change (attempts [E_ROS_INFO "Image requested"]) with 0%nat.
    split; [lia|]. split; [lia|]. intros Hi Hc. specialize (Hfull Hi Hc).
    split; [lia|]. rewrite Hn. split; [exact Hi|exact Hc].
  - simpl. rewrite publishTimerCb_run. destruct (last_request_ (node w)) as [r|]; [|discriminate].
    intro H. apply ok_inj in H. destruct H as [<- <-].
    destruct (publish_trace_counts (node w)) as (Hp & Ht & Hfull).
    pose proof (attempts_publish_trace (node w)) as Ha.
    destruct (mode r =? PUBLISH_FREQ).
    + split; [lia|]. split; [lia|]. intros Hi Hc. specialize (Hfull Hi Hc).
      split; [lia|]. split; assumption.
    + split; [reflexivity|]. split; [reflexivity|]. intros Hi Hc. repeat split; assumption.
Qed.

(** X7. Along any run the nodelet never publishes more often than the
    transform is called, and never calls the transform more often than
    [publishCroppedImage] is called.  Once a frame is cached every call of
    [publishCroppedImage] calls the transform. *)
Theorem publishes_le_transforms_le_attempts (es : list Event) (w w' : World)
    (out : list Effect) :
  run es w = Some (tt, w', out) ->
  (publishes out <= transforms out)%nat /\ (transforms out <= attempts out)%nat /\
  (last_image_msg_ (node w) <> None -> last_info_msg_ (node w) <> None ->
   transforms out = attempts out).
Proof.
  revert w w' out. induction es as [|e es IH]; intros w w' out Hrun.
  - apply run_nil_inv in Hrun. destruct Hrun as [-> ->]. repeat split; auto.
  - apply run_cons_inv in Hrun. destruct Hrun as (w1 & o1 & o2 & E1 & E2 & ->).
    destruct (dispatch_counts e w w1 o1 E1) as (P1 & T1 & F1).
    destruct (IH w1 w' o2 E2) as (P2 & T2 & F2).
    rewrite attempts_app, transforms_app, publishes_app.
    split; [lia|]. split; [lia|]. intros Hi0 Hc0.
    destruct (F1 Hi0 Hc0) as (Heq & Hi & Hc). specialize (F2 Hi Hc). lia.
Qed.

(** X8. In ALL mode a stream of frames gives one call of
    [publishCroppedImage] per frame; the k-th call hands the k-th frame and
    the current crop configuration to the transform, and a frame is published
    exactly when the transform accepts it. *)
Theorem all_mode_one_attempt_per_frame (w : World) (r : DownSampledImageRequest)
    (frames : list (Image * CameraInfo)) :
  last_request_ (node w) = Some r -> mode r = ALL ->
  exists w' out,
    run (map frame_event frames) w = Some (tt, w', out) /\
    attempts out = List.length frames /\
    filter is_transform out =
      map (fun p => E_processImage (crop_decimate_config_ (node w)) (fst p) (snd p)) frames /\
    filter is_publish out =
      flat_map (fun p =>
                  match processImage (crop_decimate_config_ (node w)) (fst p) (snd p) with
                  | Some (image_out, camera_info_out) => [E_publish image_out camera_info_out]
                  | None => []
                  end) frames /\
    ros w' = ros w.
Proof.
  intros Hr Hm. revert w Hr. induction frames as [|[i c] fs IH]; intros w Hr.
  - simpl. unfold ret. do 2 eexists. repeat split.
  - set (n1 := set_last_info_msg_ (Some c) (set_last_image_msg_ (Some i) (node w))).
    assert (E1 : dispatch (frame_event (i, c)) w = Some (tt, mkWorld n1 (ros w), publish_trace n1)).
    { simpl. rewrite imageCb_run, Hr, Hm, Z.eqb_refl. reflexivity. }
    destruct (IH (mkWorld n1 (ros w)) Hr) as (w' & o2 & E2 & A2 & T2 & P2 & R2).
    exists w', (publish_trace n1 ++ o2). split.
    { change (run (map frame_event ((i, c) :: fs)) w)
        with (bind (dispatch (frame_event (i, c))) (fun _ => run (map frame_event fs)) w).
      unfold bind. rewrite E1, E2. reflexivity. }
    rewrite attempts_app, attempts_publish_trace, A2, !filter_app, T2, P2.
    rewrite (publish_trace_full n1 i c eq_refl eq_refl). simpl.
    repeat split; auto;
      destruct (processImage (crop_decimate_config_ (node w)) i c) as [[io co]|]; reflexivity.
Qed.

(** X9. Timer ticks read the state and never write it: after any number of
    ticks the world is the one before them.  In PUBLISH_FREQ mode each tick
    calls [publishCroppedImage] once, in every other mode none does. *)
Theorem timer_ticks_read_only (w : World) (r : DownSampledImageRequest) (ids : list TimerId) :
  last_request_ (node w) = Some r ->
  exists out,
    run (map TimerFired ids) w = Some (tt, w, out) /\
    attempts out = (if mode r =? PUBLISH_FREQ then List.length ids else 0%nat) /\
    count is_createTimer out = 0%nat /\ count is_stopTimer out = 0%nat.
Proof.
  intro Hr. induction ids as [|id ids IH].
  - simpl. unfold ret. eexists. split; [reflexivity|].
    destruct (mode r =? PUBLISH_FREQ); repeat split.
  - destruct IH as (o2 & E2 & A2 & C2 & S2).
    exists ((if mode r =? PUBLISH_FREQ then publish_trace (node w) else []) ++ o2). split.
    { change (run (map TimerFired (id :: ids)) w)
        with (bind publishTimerCb (fun _ => run (map TimerFired ids)) w).
      unfold bind. rewrite publishTimerCb_run, Hr, E2. reflexivity. }
    rewrite attempts_app, !count_app, A2, C2, S2.
    destruct (mode r =? PUBLISH_FREQ).
    + rewrite attempts_publish_trace.
      rewrite !publish_trace_quiet by reflexivity. repeat split.
    + repeat split.
Qed.

(** ** Handles are neither leaked nor doubled *)

Lemma dispatch_balance (e : Event) (w w' : World) (out : list Effect) :
  Inv w -> dispatch e w = Some (tt, w', out) ->
  (count is_subscribe out + List.length (subscriptions (ros w)) =
   count is_shutdown out + List.length (subscriptions (ros w')))%nat /\
  (count is_createTimer out + List.length (timers (ros w)) =
   count is_stopTimer out + List.length (timers (ros w')))%nat.
Proof.
  intros (Ht & Hs & _) Hd. unfold sub_owned in Hs. unfold timer_owned in Ht.
  destruct e as [c | i ci | r | id].
  - revert Hd. simpl. unfold bind, modifyRos. rewrite connectCb_run. simpl.
    intro H. apply ok_inj in H. destruct H as [<- <-].
    destruct (c =? 0)%N; destruct (sub_ (node w)) as [s|] eqn:Es; simpl; rewrite Hs; simpl;
      rewrite ?Nat.eqb_refl; simpl; split; reflexivity.
  - revert Hd. simpl. rewrite imageCb_run. intro H. apply ok_inj in H. destruct H as [<- <-].
    simpl ros.
    destruct (last_request_ (node w)) as [r|]; [destruct (mode r =? ALL)|];
      rewrite ?publish_trace_quiet by reflexivity; split; reflexivity.
  - simpl in Hd. destruct (request_node r w w' out Hd) as (_ & _ & _ & _ & _ & _ & Hsub & _).
    rewrite Hsub. destruct (arms_timer w r) eqn:Ea.
    + destruct (request_timer_state w w' r out Ht Ea Hd) as (_ & Htm & _). rewrite Htm.
      rewrite (imageRequestCb_timer r w Ea) in Hd. apply ok_inj in Hd. destruct Hd as [_ <-].
      change (E_ROS_INFO "Image requested" :: publish_trace (store_request r (node w)) ++
              E_createTimer (next_handle (ros w)) (1 / effective_frequency w r) ::
              match image_publish_timer_ (node w) with
              | Some old => [E_stopTimer old]
              | None => []
              end)
        with ([E_ROS_INFO "Image requested"] ++ publish_trace (store_request r (node w)) ++
              E_createTimer (next_handle (ros w)) (1 / effective_frequency w r) ::
              match image_publish_timer_ (node w) with
              | Some old => [E_stopTimer old]
              | None => []
              end).
      rewrite !count_app, !publish_trace_quiet by reflexivity.
      destruct (image_publish_timer_ (node w)) as [old|].
      * destruct Ht as [[p0 Hp0] _]. rewrite Hp0. split; reflexivity.
      * rewrite Ht. split; reflexivity.
    + rewrite (imageRequestCb_plain r w Ea) in Hd. apply ok_inj in Hd. destruct Hd as [<- <-].
      change (E_ROS_INFO "Image requested" :: publish_trace (store_request r (node w)))
        with ([E_ROS_INFO "Image requested"] ++ publish_trace (store_request r (node w))).
      rewrite !count_app, !publish_trace_quiet by reflexivity. split; reflexivity.
  - revert Hd. simpl. rewrite publishTimerCb_run.
    destruct (last_request_ (node w)) as [r|]; [|discriminate].
    intro H. apply ok_inj in H. destruct H as [<- <-].
    destruct (mode r =? PUBLISH_FREQ); rewrite ?publish_trace_quiet by reflexivity;
      split; reflexivity.
Qed.

(** X10. Along any run from a reachable state, subscriptions opened and
    found open at the start equal subscriptions shut down and left open at the
    end, and likewise for timers created and stopped: no subscription and no
    timer is lost or counted twice, and at most one of each is left. *)
Theorem handles_balance (es : list Event) (w w' : World) (out : list Effect) :
  reachable w -> run es w = Some (tt, w', out) ->
  (count is_subscribe out + List.length (subscriptions (ros w)) =
   count is_shutdown out + List.length (subscriptions (ros w')))%nat /\
  (count is_createTimer out + List.length (timers (ros w)) =
   count is_stopTimer out + List.length (timers (ros w')))%nat /\
  (List.length (subscriptions (ros w')) <= 1)%nat /\
  (List.length (timers (ros w')) <= 1)%nat.
Proof.
  intros Hreach Hrun. pose proof (reachable_Inv w Hreach) as HI. clear Hreach.
  assert (Hend : Inv w') by exact (run_Inv es w w' out HI Hrun).
  assert (G : (count is_subscribe out + List.length (subscriptions (ros w)) =
               count is_shutdown out + List.length (subscriptions (ros w')))%nat /\
              (count is_createTimer out + List.length (timers (ros w)) =
               count is_stopTimer out + List.length (timers (ros w')))%nat).
  { clear Hend. revert w w' out HI Hrun. induction es as [|e es IH]; intros w w' out HI Hrun.
    - apply run_nil_inv in Hrun. destruct Hrun as [-> ->]. split; reflexivity.
    - apply run_cons_inv in Hrun. destruct Hrun as (w1 & o1 & o2 & E1 & E2 & ->).
      destruct (dispatch_balance e w w1 o1 HI E1) as [S1 T1].
      destruct (IH w1 w' o2 (dispatch_Inv e w w1 o1 HI E1) E2) as [S2 T2].
      rewrite !count_app. split; lia. }
  destruct G as [G1 G2]. split; [exact G1|]. split; [exact G2|].
  destruct Hend as (Ht & Hs & _). unfold sub_owned in Hs. unfold timer_owned in Ht. split.
  - rewrite Hs. destruct (sub_ (node w')); simpl; lia.
  - destruct (image_publish_timer_ (node w')).
    + destruct Ht as [[p Hp] _]. rewrite Hp. simpl. lia.
    + rewrite Ht. simpl. lia.
Qed.

(** ** Frequencies that are not positive numbers *)

Lemma SFcompare_refl (x : spec_float) :
  x <> S754_nan -> SFcompare x x = Some Eq.
Proof.
  destruct x as [s|s| |s m e]; simpl; intro H; try congruence;
    try (destruct s; reflexivity).
  destruct s; rewrite Z.compare_refl, Pos.compare_cont_refl; reflexivity.
Qed.

(** [std::min] lets a NaN second argument through to the first. *)
Lemma std_min_nan (a b : float) : is_nan b = true -> std_min a b = a.
Proof.
  unfold is_nan, std_min. rewrite eqb_spec, ltb_spec. unfold SFeqb, SFltb. intro H.
  destruct (Prim2SF b) as [s|s| |s m e] eqn:Eb.
  - rewrite SFcompare_refl in H by discriminate. discriminate.
  - rewrite SFcompare_refl in H by discriminate. discriminate.
  - reflexivity.
  - rewrite SFcompare_refl in H by discriminate. discriminate.
Qed.

Lemma Prim2SF_zero : Prim2SF 0 = S754_zero false.
Proof. reflexivity. Qed.

(** A number that is not positive stays not positive under any cap. *)
Lemma std_min_nonpositive (a b : float) :
  is_nan b = false -> (0 <? b)%float = false -> (0 <? std_min a b)%float = false.
Proof.
  intros Hb Hpos. unfold std_min. destruct (b <? a)%float eqn:E; [exact Hpos|].
  apply not_nan_compare in Hb.
  rewrite ltb_spec, Prim2SF_zero in *. unfold SFltb in *.
  destruct (Prim2SF a) as [sa|sa| |sa ma ea], (Prim2SF b) as [sb|sb| |sb mb eb];
    simpl in *; try discriminate; try reflexivity;
    try (destruct sa; try reflexivity; destruct sb; discriminate).
Qed.

(** X11. A PUBLISH_FREQ request whose frequency is NaN is not rejected:
    [std::min] returns the cap, and when the cap is positive the handler arms
    a timer that runs at the cap. *)
Theorem nan_frequency_runs_at_cap (w : World) (r : DownSampledImageRequest) :
  reachable w -> ONCE <> PUBLISH_FREQ -> mode r = PUBLISH_FREQ ->
  is_nan (publish_frequency r) = true ->
  (0 <? max_video_framerate_ (node w))%float = true ->
  exists w' out,
    imageRequestCb r w = Some (tt, w', out) /\
    effective_frequency w r = max_video_framerate_ (node w) /\
    timers (ros w') = [(next_handle (ros w), (1 / max_video_framerate_ (node w))%float)].
Proof.
  intros Hreach Hd Hm Hnan Hpos.
  destruct (reachable_Inv w Hreach) as (Ht & _).
  assert (He : effective_frequency w r = max_video_framerate_ (node w)).
  { unfold effective_frequency. apply std_min_nan. exact Hnan. }
  assert (Ea : arms_timer w r = true).
  { rewrite (arms_timer_periodic w r Hd Hm), He. exact Hpos. }
  destruct (imageRequestCb_shape r w) as (w' & tl & E & _).
  destruct (request_timer_state w w' r _ Ht Ea E) as (_ & Htm & _).
  exists w'. eexists. split; [exact E|]. split; [exact He|]. rewrite Htm, He. reflexivity.
Qed.

(** X12. A request whose frequency is a number that is not positive (zero or
    negative) never arms a timer and never stops one, whatever its mode and
    whatever the cap is. *)
Theorem nonpositive_frequency_arms_no_timer (w : World) (r : DownSampledImageRequest) :
  is_nan (publish_frequency r) = false -> (0 <? publish_frequency r)%float = false ->
  exists w' out,
    imageRequestCb r w = Some (tt, w', out) /\
    ros w' = ros w /\
    image_publish_timer_ (node w') = image_publish_timer_ (node w) /\
    count is_createTimer out = 0%nat /\ count is_stopTimer out = 0%nat.
Proof.
  intros Hnan Hpos.
  assert (Ea : arms_timer w r = false).
  { unfold arms_timer, effective_frequency.
    rewrite (std_min_nonpositive _ _ Hnan Hpos). apply andb_false_r. }
  rewrite (imageRequestCb_plain r w Ea). do 2 eexists. split; [reflexivity|].
  change (E_ROS_INFO "Image requested" :: publish_trace (store_request r (node w)))
    with ([E_ROS_INFO "Image requested"] ++ publish_trace (store_request r (node w))).
  rewrite !count_app, !publish_trace_quiet by reflexivity. repeat split.
Qed.

(** ** The transform does not steer the nodelet *)

(** A trace without its calls of [pub_.publish]. *)
Definition sans_publish (out : list Effect) : list Effect :=
  filter (fun e => negb (is_publish e)) out.

(** What a callback leaves behind, the published frames apart. *)
Definition observe (x : option (unit * World * list Effect)) : option (World * list Effect) :=
  match x with
  | Some (_, w, out) => Some (w, sans_publish out)
  | None => None
  end.

(** What [publishCroppedImage] does before it looks at the transform's result. *)
Definition publish_calls (n : Nodelet) : list Effect :=
  E_publishCroppedImage ::
  match last_image_msg_ n, last_info_msg_ n with
  | Some image, Some info => [E_processImage (crop_decimate_config_ n) image info]
  | _, _ => []
  end.

Lemma sans_publish_app (a b : list Effect) :
  sans_publish (a ++ b) = sans_publish a ++ sans_publish b.
Proof. apply filter_app. Qed.

Lemma publish_trace_calls (n : Nodelet) : sans_publish (publish_trace n) = publish_calls n.
Proof.
  unfold publish_trace, publish_calls, sans_publish. simpl.
  destruct (last_image_msg_ n) as [i|]; [destruct (last_info_msg_ n) as [c|]|]; simpl; auto.
  destruct (processImage (crop_decimate_config_ n) i c) as [[io co]|]; reflexivity.
Qed.

End Nodelet.

Arguments node {Image CameraInfo} _.
Arguments ros {Image CameraInfo} _.
Arguments sub_ {Image CameraInfo} _.
Arguments max_video_framerate_ {Image CameraInfo} _.
Arguments last_image_msg_ {Image CameraInfo} _.
Arguments last_info_msg_ {Image CameraInfo} _.
Arguments last_request_ {Image CameraInfo} _.
Arguments image_publish_timer_ {Image CameraInfo} _.
Arguments crop_decimate_config_ {Image CameraInfo} _.
Arguments SubscribersChanged {Image CameraInfo} _.
Arguments ImageArrived {Image CameraInfo} _ _.
Arguments RequestArrived {Image CameraInfo} _.
Arguments TimerFired {Image CameraInfo} _.
Arguments E_ROS_INFO {Image CameraInfo} _.
Arguments E_publishCroppedImage {Image CameraInfo}.
Arguments E_processImage {Image CameraInfo} _ _ _.
Arguments E_publish {Image CameraInfo} _ _.
Arguments E_createTimer {Image CameraInfo} _ _.
Arguments attempts {Image CameraInfo} _.
Arguments publishes {Image CameraInfo} _.
Arguments transforms {Image CameraInfo} _.
Arguments timer_ids {Image CameraInfo} _.

(** * A concrete nodelet

    Frames are numbered, the transform accepts a crop window that is not
    empty and hands the frame on, and the modes are numbered 1, 2 and 3. *)

Module Sample.

Definition crop (cfg : CropDecimate.CropDecimateConfig) (image info : nat) : option (nat * nat) :=
  if (0 <? CropDecimate.width cfg) && (0 <? CropDecimate.height cfg)
  then Some (image, info) else None.

Definition ONCE : Z := 1.
Definition PUBLISH_FREQ : Z := 2.
Definition ALL : Z := 3.

Definition no_config : CropDecimate.CropDecimateConfig :=
  CropDecimate.mkCropDecimateConfig 0 0 0 0 0 0.

Definition request (m : Z) (hz : float) : DownSampledImageRequest :=
  mkDownSampledImageRequest 2 2 (sensor_msgs.mkRegionOfInterest 0 0 480 640) m hz.

(** The nodelet started with the default parameters, and with a cap of 5 Hz. *)
Definition init : World nat nat := onInit nat nat no_config None None.
Definition init5 : World nat nat := onInit nat nat no_config None (Some 5%float).

Definition handle (e : Event nat nat) : M nat nat unit :=
  dispatch nat nat crop ONCE PUBLISH_FREQ ALL e.

Definition play (es : list (Event nat nat)) : M nat nat unit :=
  run nat nat crop ONCE PUBLISH_FREQ ALL es.

(** The state after a sequence of events, from [init]. *)
Definition after (es : list (Event nat nat)) : World nat nat :=
  match play es init with
  | Some (_, w, _) => w
  | None => init
  end.

(** A consumer attaches, a frame arrives, and a 10 Hz periodic request. *)
Definition periodic_history : list (Event nat nat) :=
  [SubscribersChanged 1%N; ImageArrived 7%nat 7%nat; RequestArrived (request PUBLISH_FREQ 10)].

Definition reach (w : World nat nat) : Prop :=
  reachable nat nat crop ONCE PUBLISH_FREQ ALL no_config w.

End Sample.
Import Sample.

Lemma sample_after_reachable (es : list (Event nat nat)) :
  feasible nat nat crop ONCE PUBLISH_FREQ ALL es init = true ->
  reach (after es).
Proof.
  intro Hf. unfold after, play.
  destruct (run nat nat crop ONCE PUBLISH_FREQ ALL es init)
    as [[[[] w] out]|] eqn:E.
  - apply (run_reachable nat nat crop ONCE PUBLISH_FREQ ALL no_config es init w out);
      [apply reach_init | exact Hf | exact E].
  - apply reach_init.
Qed.

(** C1, as the specification states it, fails: the timer of a periodic request
    is still started after a ONCE request has been handled. *)
Lemma cancels_previous_timers_fails :
  ~ cancels_previous_timers nat nat crop ONCE PUBLISH_FREQ ALL
      no_config.
Proof.
  intro H.
  refine (H (after periodic_history)
            (after (periodic_history ++ [RequestArrived (request ONCE 0)]))
            (request ONCE 0) _ _ _ 1%nat _ _).
  - apply sample_after_reachable. reflexivity.
  - vm_compute. reflexivity.
  - vm_compute. auto.
  - vm_compute. auto.
Qed.

(** C2, as the specification states it, fails: after a periodic request and
    then a ONCE request a timer is started although the mode is ONCE. *)
Lemma timer_iff_periodic_fails :
  ~ timer_iff_periodic nat nat crop ONCE PUBLISH_FREQ ALL
      no_config.
Proof.
  intro H.
  destruct (H (after (periodic_history ++ [RequestArrived (request ONCE 0)])))
    as [[Hl _] _].
  - apply sample_after_reachable. reflexivity.
  - destruct Hl as (r & Hr & Hm & _).
    + vm_compute. discriminate.
    + vm_compute in Hr. inversion Hr; subst r. vm_compute in Hm. discriminate.
Qed.

(** C3: the code departs from the claim.  A periodic request at 10 Hz arms a
    timer; a periodic request at 0 Hz then arms none, but the first timer is
    still started and the mode is still PUBLISH_FREQ, so its tick publishes. *)
Lemma periodic_zero_old_timer_publishes :
  let es := periodic_history ++ [RequestArrived (request PUBLISH_FREQ 0)] in
  feasible nat nat crop ONCE PUBLISH_FREQ ALL es init = true /\
  effective_frequency nat nat (after periodic_history) (request PUBLISH_FREQ 0) = 0%float /\
  timers (ros (after es)) = [(1%nat, (1 / 10)%float)] /\
  enabled nat nat (TimerFired 1%nat) (after es) = true /\
  handle (TimerFired 1%nat) (after es) =
    Some (tt, after es,
          [E_publishCroppedImage;
           E_processImage (CropDecimate.mkCropDecimateConfig 2 2 640 480 0 0) 7%nat 7%nat;
           E_publish 7%nat 7%nat]).
Proof. vm_compute. repeat split; reflexivity. Qed.

(** C1 (amended) on the sample: a ONCE request after a periodic one. *)
Lemma imageRequestCb_replaces_timer_witness :
  reach (after periodic_history) /\
  exists w' out,
    imageRequestCb nat nat crop ONCE PUBLISH_FREQ (request ONCE 0) (after periodic_history) =
      Some (tt, w', out) /\
    timers (ros w') = timers (ros (after periodic_history)) /\
    publishTimerCb nat nat crop PUBLISH_FREQ w' = Some (tt, w', []).
Proof.
  assert (Hr : reach (after periodic_history)) by (apply sample_after_reachable; reflexivity).
  split; [exact Hr|].
  destruct (imageRequestCb_replaces_timer nat nat crop ONCE PUBLISH_FREQ ALL no_config
              (after periodic_history) (request ONCE 0) Hr) as (w' & out & E & _ & H).
  exists w', out. split; [exact E|].
  assert (Hm : mode (request ONCE 0) <> PUBLISH_FREQ) by (vm_compute; discriminate).
  destruct (H Hm) as (_ & Ht & Hp). split; assumption.
Defined.

(** C2 (amended) on the sample: the state after a 10 Hz periodic request. *)
Lemma periodic_request_has_timer_witness :
  reach (after periodic_history) /\ ONCE <> PUBLISH_FREQ /\
  exists id, image_publish_timer_ (node (after periodic_history)) = Some id /\
             timers (ros (after periodic_history)) = [(id, (1 / 10)%float)].
Proof.
  assert (Hr : reach (after periodic_history)) by (apply sample_after_reachable; reflexivity).
  assert (Hd : ONCE <> PUBLISH_FREQ) by (vm_compute; discriminate).
  split; [exact Hr|]. split; [exact Hd|].
  destruct (periodic_request_has_timer nat nat crop ONCE PUBLISH_FREQ ALL no_config
              (after periodic_history) Hr Hd) as [H _].
  exact (H (request PUBLISH_FREQ 10) eq_refl eq_refl eq_refl).
Defined.

(** C4 on the sample: a ONCE request after a periodic one, then two ticks
    of the old timer and a frame. *)
Lemma once_request_single_attempt_witness :
  ONCE <> PUBLISH_FREQ /\ ONCE <> ALL /\ mode (request ONCE 0) = ONCE /\
  exists w' out,
    imageRequestCb nat nat crop ONCE PUBLISH_FREQ (request ONCE 0) (after periodic_history) =
      Some (tt, w', out) /\
    attempts out = 1%nat /\
    exists w'' out',
      play [TimerFired 1%nat; ImageArrived 8%nat 8%nat; TimerFired 1%nat] w' = Some (tt, w'', out') /\
      attempts out' = 0%nat.
Proof.
  assert (Hp : ONCE <> PUBLISH_FREQ) by (vm_compute; discriminate).
  assert (Ha : ONCE <> ALL) by (vm_compute; discriminate).
  split; [exact Hp|]. split; [exact Ha|]. split; [reflexivity|].
  destruct (once_request_single_attempt nat nat crop ONCE PUBLISH_FREQ ALL
              (after periodic_history) (request ONCE 0) Hp Ha eq_refl)
    as (w' & out & E & Hat & _ & Hq).
  exists w', out. split; [exact E|]. split; [exact Hat|].
  exact (Hq [TimerFired 1%nat; ImageArrived 8%nat 8%nat; TimerFired 1%nat] eq_refl).
Defined.

(** C5 on the sample: a request for 10 Hz under a cap of 5 Hz. *)
Lemma periodic_request_capped_timer_witness :
  reach init5 /\ ONCE <> PUBLISH_FREQ /\ mode (request PUBLISH_FREQ 10) = PUBLISH_FREQ /\
  exists w' out,
    imageRequestCb nat nat crop ONCE PUBLISH_FREQ (request PUBLISH_FREQ 10) init5 =
      Some (tt, w', out) /\
    attempts out = 1%nat /\
    timers (ros w') = [(0%nat, (1 / 5)%float)].
Proof.
  assert (Hr : reach init5) by apply reach_init.
  assert (Hd : ONCE <> PUBLISH_FREQ) by (vm_compute; discriminate).
  split; [exact Hr|]. split; [exact Hd|]. split; [reflexivity|].
  destruct (periodic_request_capped_timer nat nat crop ONCE PUBLISH_FREQ ALL no_config
              init5 (request PUBLISH_FREQ 10) Hr Hd eq_refl)
    as (w' & out & E & Hat & _ & _ & _ & H5).
  exists w', out. split; [exact E|]. split; [exact Hat|].
  exact (H5 eq_refl eq_refl).
Defined.

(** C6 on the sample: a frame arriving in ALL mode. *)
Lemma imageCb_spec_witness :
  let es := [SubscribersChanged 1%N; ImageArrived 7%nat 7%nat; RequestArrived (request ALL 0)] in
  exists out0,
    play es init = Some (tt, after es, out0) /\
    exists w' out,
      imageCb nat nat crop ALL 8%nat 8%nat (after es) = Some (tt, w', out) /\
      last_image_msg_ (node w') = Some 8%nat /\
      attempts out = 1%nat.
Proof.
  intro es. eexists. split; [reflexivity|].
  destruct (imageCb_spec nat nat crop ONCE PUBLISH_FREQ ALL no_config None None es
              (after es) _ 8%nat 8%nat eq_refl)
    as (w' & out & E & _ & _ & Hi & _ & _ & Hall & _).
  exists w', out. split; [exact E|]. split; [exact Hi|].
  exact (proj1 (Hall (request ALL 0) eq_refl eq_refl)).
Defined.

(** C7 on the sample: no frame cached yet. *)
Lemma publishCroppedImage_spec_witness :
  exists out,
    publishCroppedImage nat nat crop init = Some (tt, init, out) /\
    out = [E_publishCroppedImage].
Proof.
  destruct (publishCroppedImage_spec nat nat crop ONCE PUBLISH_FREQ ALL init)
    as (out & E & Hn & _).
  exists out. split; [exact E|]. apply Hn. left. reflexivity.
Defined.

(** C8 on the sample: two consumers attach to the fresh nodelet. *)
Lemma connectCb_gate_witness :
  reach init /\
  exists w' out,
    handle (SubscribersChanged 2%N) init = Some (tt, w', out) /\
    subscriptions (ros w') <> [] /\
    handle (SubscribersChanged 2%N) w' = Some (tt, w', []).
Proof.
  assert (Hr : reach init) by apply reach_init.
  split; [exact Hr|].
  destruct (connectCb_gate nat nat crop ONCE PUBLISH_FREQ ALL no_config init 2%N Hr)
    as (w' & out & E & Hopen & _ & _ & Hagain & _).
  exists w', out. split; [exact E|]. split; [|exact Hagain].
  apply Hopen. discriminate.
Defined.

(** C9 on the sample: a request with mode 7. *)
Lemma unrecognized_mode_free_run_witness :
  mode (request 7 0) <> ONCE /\ mode (request 7 0) <> PUBLISH_FREQ /\ mode (request 7 0) <> ALL /\
  exists w' out,
    imageRequestCb nat nat crop ONCE PUBLISH_FREQ (request 7 0) init = Some (tt, w', out) /\
    attempts out = 1%nat /\
    timers (ros w') = [] /\
    last_request_ (node w') = Some (request 7 0).
Proof.
  assert (H1 : mode (request 7 0) <> ONCE) by (vm_compute; discriminate).
  assert (H2 : mode (request 7 0) <> PUBLISH_FREQ) by (vm_compute; discriminate).
  assert (H3 : mode (request 7 0) <> ALL) by (vm_compute; discriminate).
  split; [exact H1|]. split; [exact H2|]. split; [exact H3|].
  destruct (unrecognized_mode_free_run nat nat crop ONCE PUBLISH_FREQ ALL init (request 7 0) H1 H2 H3)
    as (w' & out & E & Hat & _ & Ht & _ & Hreq & _).
  exists w', out. split; [exact E|]. split; [exact Hat|]. split; [exact Ht|exact Hreq].
Defined.

(** C10 on the sample: the timer of a periodic request ticks. *)
Lemma timer_tick_request_present_witness :
  reach (after periodic_history) /\
  enabled nat nat (TimerFired 1%nat) (after periodic_history) = true /\
  last_request_ (node (after periodic_history)) <> None.
Proof.
  assert (Hr : reach (after periodic_history)) by (apply sample_after_reachable; reflexivity).
  split; [exact Hr|]. split; [reflexivity|].
  exact (proj1 (timer_tick_request_present nat nat crop ONCE PUBLISH_FREQ ALL no_config
                  (after periodic_history) 1%nat Hr eq_refl)).
Defined.

(** * Further properties on the concrete nodelet, and across transforms *)

Arguments observe {Image CameraInfo} _.
Arguments sans_publish {Image CameraInfo} _.
Arguments count {Image CameraInfo} _ _.
Arguments is_createTimer {Image CameraInfo} _.
Arguments is_stopTimer {Image CameraInfo} _.
Arguments is_subscribe {Image CameraInfo} _.
Arguments is_shutdown {Image CameraInfo} _.
Arguments is_transform {Image CameraInfo} _.
Arguments is_publish {Image CameraInfo} _.
Arguments queue_size_ {Image CameraInfo} _.
Arguments crop_decimate_configured_ {Image CameraInfo} _.
Arguments E_subscribeCamera {Image CameraInfo} _ _.
Arguments E_shutdown {Image CameraInfo} _.
Arguments E_stopTimer {Image CameraInfo} _.

Lemma sans_publish_info (Image CameraInfo : Type) (msg : string)
    (out : list (Effect Image CameraInfo)) :
  sans_publish (E_ROS_INFO msg :: out) = E_ROS_INFO msg :: sans_publish out.
Proof. reflexivity. Qed.

Lemma dispatch_transform_independent (Image CameraInfo : Type)
    (p1 p2 : CropDecimate.CropDecimateConfig -> Image -> CameraInfo -> option (Image * CameraInfo))
    (ONCE PUBLISH_FREQ ALL : Z) (e : Event Image CameraInfo) (w : World Image CameraInfo) :
  observe (dispatch Image CameraInfo p1 ONCE PUBLISH_FREQ ALL e w) =
  observe (dispatch Image CameraInfo p2 ONCE PUBLISH_FREQ ALL e w).
Proof.
  destruct e as [c | i ci | r | id].
  - reflexivity.
  - simpl. rewrite !imageCb_run. unfold observe.
    destruct (last_request_ (node w)) as [r|]; [destruct (mode r =? ALL)|];
      rewrite ?publish_trace_calls; reflexivity.
  - simpl. destruct (arms_timer Image CameraInfo ONCE PUBLISH_FREQ w r) eqn:Ea.
    + rewrite (imageRequestCb_timer Image CameraInfo p1 ONCE PUBLISH_FREQ r w Ea),
        (imageRequestCb_timer Image CameraInfo p2 ONCE PUBLISH_FREQ r w Ea).
      unfold observe. do 2 f_equal.
      rewrite !sans_publish_info, !sans_publish_app, !publish_trace_calls. reflexivity.
    + rewrite (imageRequestCb_plain Image CameraInfo p1 ONCE PUBLISH_FREQ r w Ea),
        (imageRequestCb_plain Image CameraInfo p2 ONCE PUBLISH_FREQ r w Ea).
      unfold observe. do 2 f_equal.
      rewrite !sans_publish_info, !publish_trace_calls. reflexivity.
  - simpl. rewrite !publishTimerCb_run. destruct (last_request_ (node w)) as [r|]; [|reflexivity].
    unfold observe. destruct (mode r =? PUBLISH_FREQ); rewrite ?publish_trace_calls; reflexivity.
Qed.

(** X13. The transform does not steer the nodelet.  With any two transforms
    the same events from the same state either fault in both, or leave the
    same state and the same trace up to the frames published: a failing
    transform costs the output of that call and nothing else. *)
Theorem transform_does_not_steer (Image CameraInfo : Type)
    (p1 p2 : CropDecimate.CropDecimateConfig -> Image -> CameraInfo -> option (Image * CameraInfo))
    (ONCE PUBLISH_FREQ ALL : Z) (es : list (Event Image CameraInfo)) (w : World Image CameraInfo) :
  observe (run Image CameraInfo p1 ONCE PUBLISH_FREQ ALL es w) =
  observe (run Image CameraInfo p2 ONCE PUBLISH_FREQ ALL es w).
Proof.
  revert w. induction es as [|e es IH]; intro w; [reflexivity|].
  pose proof (dispatch_transform_independent Image CameraInfo p1 p2 ONCE PUBLISH_FREQ ALL e w) as Hd.
  simpl. unfold bind.
  destruct (dispatch Image CameraInfo p1 ONCE PUBLISH_FREQ ALL e w) as [[[[] w1] o1]|];
    destruct (dispatch Image CameraInfo p2 ONCE PUBLISH_FREQ ALL e w) as [[[[] w2] o2]|];
    simpl in Hd; try discriminate; [|reflexivity].
  inversion Hd as [[Hw Ho]]. subst w2. specialize (IH w1).
  destruct (run Image CameraInfo p1 ONCE PUBLISH_FREQ ALL es w1) as [[[[] w3] o3]|];
    destruct (run Image CameraInfo p2 ONCE PUBLISH_FREQ ALL es w1) as [[[[] w4] o4]|];
    simpl in IH; try discriminate; [|reflexivity].
  inversion IH as [[Hw' Ho']]. subst w4. simpl.
  rewrite !sans_publish_app. unfold sans_publish in *. rewrite Ho, Ho'. reflexivity.
Qed.

(** Frames arrive, then the last consumer leaves. *)
Definition frames_then_detach : list (Event nat nat) :=
  [SubscribersChanged 1%N; ImageArrived 7%nat 7%nat; ImageArrived 8%nat 8%nat;
   SubscribersChanged 0%N].

(** The trace of a sequence of events, from [init]. *)
Definition output (es : list (Event nat nat)) : list (Effect nat nat) :=
  match play es init with
  | Some (_, _, out) => out
  | None => []
  end.

(** Histories of the sample, with the state and the trace they end in. *)
Definition once_after_periodic : list (Event nat nat) :=
  periodic_history ++ [RequestArrived (request ONCE 0)].

Definition ticks_then_once : list (Event nat nat) :=
  periodic_history ++ [TimerFired 1%nat; TimerFired 1%nat; RequestArrived (request ONCE 0)].

Definition two_periodic_then_detach : list (Event nat nat) :=
  periodic_history ++ [RequestArrived (request PUBLISH_FREQ 5); SubscribersChanged 0%N].

Definition periodic_state : World nat nat := Eval vm_compute in after periodic_history.
Definition periodic_trace : list (Effect nat nat) := Eval vm_compute in output periodic_history.
Definition once_state : World nat nat := Eval vm_compute in after once_after_periodic.
Definition once_trace : list (Effect nat nat) := Eval vm_compute in output once_after_periodic.
Definition detached_state : World nat nat := Eval vm_compute in after frames_then_detach.
Definition detached_trace : list (Effect nat nat) := Eval vm_compute in output frames_then_detach.
Definition ticks_state : World nat nat := Eval vm_compute in after ticks_then_once.
Definition ticks_trace : list (Effect nat nat) := Eval vm_compute in output ticks_then_once.
Definition two_periodic_state : World nat nat := Eval vm_compute in after two_periodic_then_detach.
Definition two_periodic_trace : list (Effect nat nat) :=
  Eval vm_compute in output two_periodic_then_detach.

(** X1 on the sample: the parameters after a periodic request. *)
Lemma parameters_never_change_witness :
  play periodic_history init = Some (tt, periodic_state, periodic_trace) /\
  queue_size_ (node periodic_state) = 5 /\
  max_video_framerate_ (node periodic_state) = 100%float.
Proof.
  assert (Hrun : run nat nat crop ONCE PUBLISH_FREQ ALL periodic_history
                   (onInit nat nat no_config None None) = Some (tt, periodic_state, periodic_trace))
    by (vm_compute; reflexivity).
  split; [exact Hrun|].
  exact (parameters_never_change nat nat crop ONCE PUBLISH_FREQ ALL no_config None None
           periodic_history periodic_state periodic_trace Hrun).
Defined.

(** X2 on the sample: one consumer, one open subscription. *)
Lemma subscription_follows_consumers_witness :
  reach (after periodic_history) /\
  subscriptions (ros (after periodic_history)) <> [] /\
  sub_ (node (after periodic_history)) <> None.
Proof.
  assert (Hr : reach (after periodic_history)) by (apply sample_after_reachable; reflexivity).
  split; [exact Hr|].
  destruct (subscription_follows_consumers nat nat crop ONCE PUBLISH_FREQ ALL no_config
              (after periodic_history) Hr) as (Hopen & Hsub & _).
  assert (Hn : num_subscribers (ros (after periodic_history)) <> 0%N) by (vm_compute; discriminate).
  split; [apply Hopen; exact Hn | apply Hsub; exact Hn].
Defined.

(** X3 on the sample: a ONCE request replaces a periodic one. *)
Lemma request_state_follows_history_witness :
  play once_after_periodic init = Some (tt, once_state, once_trace) /\
  last_request_ (node once_state) = Some (request ONCE 0) /\
  crop_decimate_config_ (node once_state) = CropDecimate.mkCropDecimateConfig 2 2 640 480 0 0 /\
  crop_decimate_configured_ (node once_state) = true.
Proof.
  assert (Hrun : run nat nat crop ONCE PUBLISH_FREQ ALL once_after_periodic
                   (onInit nat nat no_config None None) = Some (tt, once_state, once_trace))
    by (vm_compute; reflexivity).
  split; [exact Hrun|].
  exact (request_state_follows_history nat nat crop ONCE PUBLISH_FREQ ALL no_config
           None None once_after_periodic once_state once_trace Hrun).
Defined.

(** X4 on the sample: the frame cached last survives the detach. *)
Lemma frame_cache_follows_history_witness :
  play frames_then_detach init = Some (tt, detached_state, detached_trace) /\
  (last_image_msg_ (node detached_state), last_info_msg_ (node detached_state)) =
    (Some 8%nat, Some 8%nat) /\
  subscriptions (ros detached_state) = [].
Proof.
  assert (Hrun : run nat nat crop ONCE PUBLISH_FREQ ALL frames_then_detach
                   (onInit nat nat no_config None None) = Some (tt, detached_state, detached_trace))
    by (vm_compute; reflexivity).
  split; [exact Hrun|]. split; [|reflexivity].
  exact (proj1 (frame_cache_follows_history nat nat crop ONCE PUBLISH_FREQ ALL no_config
                  None None frames_then_detach detached_state detached_trace Hrun)).
Defined.

(** X5 on the sample: the 10 Hz timer under the cap of 100 Hz. *)
Lemma timers_never_exceed_cap_witness :
  reach (after periodic_history) /\
  exists hz, (1 / 10)%float = (1 / hz)%float /\ (0 <? hz)%float = true /\
             (hz <=? 100)%float = true.
Proof.
  assert (Hr : reach (after periodic_history)) by (apply sample_after_reachable; reflexivity).
  split; [exact Hr|].
  exact (timers_never_exceed_cap nat nat crop ONCE PUBLISH_FREQ ALL no_config
           (after periodic_history) Hr 1%nat (1 / 10)%float (or_introl eq_refl)).
Defined.

(** X6 on the sample: frames and consumers before any request. *)
Lemma nothing_before_first_request_witness :
  last_request_ (node init) = None /\
  existsb (is_request nat nat) frames_then_detach = false /\
  play frames_then_detach init = Some (tt, detached_state, detached_trace) /\
  attempts detached_trace = 0%nat /\
  publishes detached_trace = 0%nat.
Proof.
  assert (Hrun : run nat nat crop ONCE PUBLISH_FREQ ALL frames_then_detach
                   (onInit nat nat no_config None None) = Some (tt, detached_state, detached_trace))
    by (vm_compute; reflexivity).
  split; [reflexivity|]. split; [reflexivity|]. split; [exact Hrun|].
  destruct (nothing_before_first_request nat nat crop ONCE PUBLISH_FREQ ALL
              frames_then_detach init detached_state detached_trace
              eq_refl eq_refl Hrun) as (Ha & _ & Hp & _).
  split; [exact Ha|exact Hp].
Defined.

(** X7 on the sample: a periodic request, two ticks and a ONCE request. *)
Lemma publishes_le_transforms_le_attempts_witness :
  play ticks_then_once init = Some (tt, ticks_state, ticks_trace) /\
  (publishes ticks_trace <= transforms ticks_trace)%nat /\
  (transforms ticks_trace <= attempts ticks_trace)%nat.
Proof.
  assert (Hrun : run nat nat crop ONCE PUBLISH_FREQ ALL ticks_then_once
                   (onInit nat nat no_config None None) = Some (tt, ticks_state, ticks_trace))
    by (vm_compute; reflexivity).
  split; [exact Hrun|].
  destruct (publishes_le_transforms_le_attempts nat nat crop ONCE PUBLISH_FREQ ALL
              ticks_then_once init ticks_state ticks_trace Hrun) as (Hp & Ht & _).
  split; [exact Hp|exact Ht].
Defined.

(** X8 on the sample: two frames in ALL mode. *)
Lemma all_mode_one_attempt_per_frame_witness :
  let w := after [SubscribersChanged 1%N; ImageArrived 7%nat 7%nat;
                  RequestArrived (request ALL 0)] in
  last_request_ (node w) = Some (request ALL 0) /\ mode (request ALL 0) = ALL /\
  exists w' out,
    play (map (frame_event nat nat) [(8%nat, 8%nat); (9%nat, 9%nat)]) w = Some (tt, w', out) /\
    attempts out = 2%nat /\
    filter is_publish out = [E_publish 8%nat 8%nat; E_publish 9%nat 9%nat].
Proof.
  intro w. split; [reflexivity|]. split; [reflexivity|].
  destruct (all_mode_one_attempt_per_frame nat nat crop ONCE PUBLISH_FREQ ALL w
              (request ALL 0) [(8%nat, 8%nat); (9%nat, 9%nat)] eq_refl eq_refl)
    as (w' & out & E & Ha & _ & Hp & _).
  exists w', out. split; [exact E|]. split; [exact Ha|exact Hp].
Defined.

(** X9 on the sample: three ticks of the 10 Hz timer. *)
Lemma timer_ticks_read_only_witness :
  last_request_ (node (after periodic_history)) = Some (request PUBLISH_FREQ 10) /\
  exists out,
    play (map TimerFired [1%nat; 1%nat; 1%nat]) (after periodic_history) =
      Some (tt, after periodic_history, out) /\
    attempts out = 3%nat.
Proof.
  split; [reflexivity|].
  destruct (timer_ticks_read_only nat nat crop ONCE PUBLISH_FREQ ALL (after periodic_history)
              (request PUBLISH_FREQ 10) [1%nat; 1%nat; 1%nat] eq_refl) as (out & E & Ha & _).
  exists out. split; [exact E|exact Ha].
Defined.

(** X10 on the sample: two periodic requests, then the last consumer leaves. *)
Lemma handles_balance_witness :
  reach init /\
  play two_periodic_then_detach init = Some (tt, two_periodic_state, two_periodic_trace) /\
  (count is_subscribe two_periodic_trace + 0 =
   count is_shutdown two_periodic_trace + List.length (subscriptions (ros two_periodic_state)))%nat /\
  (count is_createTimer two_periodic_trace + 0 =
   count is_stopTimer two_periodic_trace + List.length (timers (ros two_periodic_state)))%nat.
Proof.
  assert (Hr : reach init) by apply reach_init.
  assert (Hrun : run nat nat crop ONCE PUBLISH_FREQ ALL two_periodic_then_detach
                   (onInit nat nat no_config None None) = Some (tt, two_periodic_state, two_periodic_trace))
    by (vm_compute; reflexivity).
  split; [exact Hr|]. split; [exact Hrun|].
  destruct (handles_balance nat nat crop ONCE PUBLISH_FREQ ALL no_config
              two_periodic_then_detach init two_periodic_state two_periodic_trace Hr Hrun)
    as (Hs & Ht & _).
  split; [exact Hs|exact Ht].
Defined.

(** X11 on the sample: a periodic request with a NaN frequency. *)
Lemma nan_frequency_runs_at_cap_witness :
  reach init /\ ONCE <> PUBLISH_FREQ /\ mode (request PUBLISH_FREQ nan) = PUBLISH_FREQ /\
  is_nan (publish_frequency (request PUBLISH_FREQ nan)) = true /\
  (0 <? max_video_framerate_ (node init))%float = true /\
  exists w' out,
    imageRequestCb nat nat crop ONCE PUBLISH_FREQ (request PUBLISH_FREQ nan) init =
      Some (tt, w', out) /\
    timers (ros w') = [(0%nat, (1 / 100)%float)].
Proof.
  assert (Hr : reach init) by apply reach_init.
  assert (Hd : ONCE <> PUBLISH_FREQ) by (vm_compute; discriminate).
  split; [exact Hr|]. split; [exact Hd|]. do 3 (split; [reflexivity|]).
  destruct (nan_frequency_runs_at_cap nat nat crop ONCE PUBLISH_FREQ ALL no_config init
              (request PUBLISH_FREQ nan) Hr Hd eq_refl eq_refl eq_refl)
    as (w' & out & E & _ & Ht).
  exists w', out. split; [exact E|exact Ht].
Defined.

(** X12 on the sample: a periodic request for -5 Hz while a timer runs. *)
Lemma nonpositive_frequency_arms_no_timer_witness :
  is_nan (publish_frequency (request PUBLISH_FREQ (-5))) = false /\
  (0 <? publish_frequency (request PUBLISH_FREQ (-5)))%float = false /\
  exists w' out,
    imageRequestCb nat nat crop ONCE PUBLISH_FREQ (request PUBLISH_FREQ (-5))
      (after periodic_history) = Some (tt, w', out) /\
    timers (ros w') = [(1%nat, (1 / 10)%float)].
Proof.
  split; [reflexivity|]. split; [reflexivity|].
  destruct (nonpositive_frequency_arms_no_timer nat nat crop ONCE PUBLISH_FREQ
              (after periodic_history) (request PUBLISH_FREQ (-5)) eq_refl eq_refl)
    as (w' & out & E & Hros & _).
  exists w', out. split; [exact E|]. rewrite Hros. reflexivity.
Defined.
